(** * Client session and chat controller of [static/script.js]

    A shallow embedding of the browser script: the page state (the two
    global variables, [localStorage], the DOM nodes the script reads and
    writes, and the log of [fetch] calls) is a record, every function of the
    script is a function on that record, and every [async] function is split
    at its [await] into the part that runs when the event fires and the part
    that runs when the network answers. *)

From Stdlib Require Import ZArith String Ascii List Bool Lia DecimalString DecimalPos DecimalZ QArith.
From stdpp Require Import gmap strings list.

Open Scope Z_scope.
Open Scope string_scope.
Open Scope list_scope.

(** ** The platform's JSON codec

    [JSON.parse] and [JSON.stringify] belong to the browser, not to the
    script.  They are modelled on byte strings: a JavaScript string is the
    sequence of its code units below 256, a number is an integer written in
    canonical decimal notation (fractions, exponents and negative zero are
    floating-point values and are left out, so the parser refuses them), and
    an object is the list of its properties in the order they were written
    (the engine's reordering of integer-like keys is not modelled).  A parse
    error ([SyntaxError]) is [None].  The parser therefore refuses some texts
    the browser accepts (a fraction, an exponent, an escape of a code unit
    from 256 on); a statement about a parse error is made on a text the
    browser refuses too, or takes the browser's parser as a parameter. *)

Module JSON.

#[warnings="-register-all"]
Inductive json : Type :=
| JNull
| JBool (b : bool)
| JNum (z : Z)
| JStr (s : string)
| JArr (items : list json)
| JObj (members : list (string * json)).

Definition chars : Type := list ascii.

Definition dquote : ascii := "034"%char.
Definition backslash : ascii := "092"%char.

(** *** Serialisation ([JSON.stringify] without indentation) *)

Definition hex_digit (n : N) : ascii :=
  match n with
  | 0 => "0" | 1 => "1" | 2 => "2" | 3 => "3" | 4 => "4" | 5 => "5"
  | 6 => "6" | 7 => "7" | 8 => "8" | 9 => "9" | 10 => "a" | 11 => "b"
  | 12 => "c" | 13 => "d" | 14 => "e" | _ => "f"
  end%N%char.

(** QuoteJSONString: the quote, the backslash and the control characters
    are escaped, everything else is copied. *)
Definition escape_char (c : ascii) : chars :=
  let n := N_of_ascii c in
  if (n =? 34)%N then [backslash; dquote]
  else if (n =? 92)%N then [backslash; backslash]
  else if (n =? 8)%N then [backslash; "b"%char]
  else if (n =? 9)%N then [backslash; "t"%char]
  else if (n =? 10)%N then [backslash; "n"%char]
  else if (n =? 12)%N then [backslash; "f"%char]
  else if (n =? 13)%N then [backslash; "r"%char]
  else if (n <? 32)%N then
    [backslash; "u"%char; "0"%char; "0"%char;
     hex_digit (n / 16); hex_digit (n mod 16)]
  else [c].

Definition quote (s : string) : chars :=
  dquote :: flat_map escape_char (list_ascii_of_string s) ++ [dquote].

Definition digits (z : Z) : chars :=
  list_ascii_of_string (NilEmpty.string_of_int (Z.to_int z)).

(** The elements after the first one, each behind its comma. *)
Definition after_first (texts : list chars) : chars :=
  flat_map (fun t => ","%char :: t) texts.

Definition comma_separated (texts : list chars) : chars :=
  match texts with
  | [] => []
  | t :: ts => t ++ after_first ts
  end.

Definition member_text (k : string) (t : chars) : chars :=
  quote k ++ ":"%char :: t.

Fixpoint stringify_chars (v : json) : chars :=
  match v with
  | JNull => list_ascii_of_string "null"
  | JBool true => list_ascii_of_string "true"
  | JBool false => list_ascii_of_string "false"
  | JNum z => digits z
  | JStr s => quote s
  | JArr items =>
      "["%char :: comma_separated (map stringify_chars items) ++ ["]"%char]
  | JObj members =>
      "{"%char
        :: comma_separated
             (map (fun kv => member_text (fst kv) (stringify_chars (snd kv)))
                  members)
        ++ ["}"%char]
  end.

Definition stringify (v : json) : string :=
  string_of_list_ascii (stringify_chars v).

(** *** Parsing ([JSON.parse]) *)

Definition is_ws (c : ascii) : bool :=
  let n := N_of_ascii c in
  ((n =? 32) || (n =? 9) || (n =? 10) || (n =? 13))%N.

Fixpoint skip_ws (s : chars) : chars :=
  match s with
  | c :: r => if is_ws c then skip_ws r else s
  | [] => []
  end.

Definition is_num_char (c : ascii) : bool :=
  let n := N_of_ascii c in
  ((n =? 45) || ((48 <=? n) && (n <=? 57)))%N.

Fixpoint span_num (s : chars) : chars * chars :=
  match s with
  | c :: r =>
      if is_num_char c
      then let (tok, rest) := span_num r in (c :: tok, rest)
      else ([], s)
  | [] => ([], [])
  end.

(** A number token is accepted when it is the canonical decimal writing of
    an integer. *)
Definition parse_number (s : chars) : option (Z * chars) :=
  let (tok, rest) := span_num s in
  match NilEmpty.int_of_string (string_of_list_ascii tok) with
  | Some d =>
      let z := Z.of_int d in
      if decide (digits z = tok) then Some (z, rest) else None
  | None => None
  end.

Definition hex_value (c : ascii) : option N :=
  let n := N_of_ascii c in
  if ((48 <=? n) && (n <=? 57))%N then Some (n - 48)%N
  else if ((97 <=? n) && (n <=? 102))%N then Some (n - 87)%N
  else if ((65 <=? n) && (n <=? 70))%N then Some (n - 55)%N
  else None.

(** [\uXXXX]; code units from 256 on are outside the byte model. *)
Definition unicode_escape (a b c d : ascii) : option ascii :=
  match hex_value a, hex_value b, hex_value c, hex_value d with
  | Some x, Some y, Some z, Some w =>
      let n := (((x * 16 + y) * 16 + z) * 16 + w)%N in
      if (n <? 256)%N then Some (ascii_of_N n) else None
  | _, _, _, _ => None
  end.

Definition simple_escape (e : ascii) : option ascii :=
  let n := N_of_ascii e in
  if (n =? 34)%N then Some dquote
  else if (n =? 92)%N then Some backslash
  else if (n =? 47)%N then Some "/"%char
  else if (n =? 98)%N then Some "008"%char
  else if (n =? 116)%N then Some "009"%char
  else if (n =? 110)%N then Some "010"%char
  else if (n =? 102)%N then Some "012"%char
  else if (n =? 114)%N then Some "013"%char
  else None.

Definition push (c : ascii) (r : option (chars * chars)) : option (chars * chars) :=
  match r with
  | Some (str, rest) => Some (c :: str, rest)
  | None => None
  end.

(** The characters of a string literal after its opening quote, up to and
    including the closing quote. *)
Fixpoint parse_chars (s : chars) : option (chars * chars) :=
  match s with
  | [] => None
  | c :: r =>
      if (N_of_ascii c =? 34)%N then Some ([], r)
      else if (N_of_ascii c =? 92)%N then
        match r with
        | [] => None
        | e :: r1 =>
            if (N_of_ascii e =? 117)%N then
              match r1 with
              | a :: b :: c' :: d :: r2 =>
                  match unicode_escape a b c' d with
                  | Some x => push x (parse_chars r2)
                  | None => None
                  end
              | _ => None
              end
            else
              match simple_escape e with
              | Some x => push x (parse_chars r1)
              | None => None
              end
        end
      else if (N_of_ascii c <? 32)%N then None
      else push c (parse_chars r)
  end.

Definition parse_string (s : chars) : option (string * chars) :=
  match skip_ws s with
  | c :: r =>
      if (N_of_ascii c =? 34)%N then
        match parse_chars r with
        | Some (str, rest) => Some (string_of_list_ascii str, rest)
        | None => None
        end
      else None
  | [] => None
  end.

Definition parse_literal (s : chars) : option (json * chars) :=
  match s with
  | "n" :: "u" :: "l" :: "l" :: r => Some (JNull, r)
  | "t" :: "r" :: "u" :: "e" :: r => Some (JBool true, r)
  | "f" :: "a" :: "l" :: "s" :: "e" :: r => Some (JBool false, r)
  | _ => None
  end%char.

Definition parser (A : Type) : Type := chars -> option (A * chars).

(** What follows the first element of an array: [, value]* and the closing
    bracket. *)
Fixpoint parse_elements (pv : parser json) (fuel : nat) (s : chars)
  : option (list json * chars) :=
  match fuel with
  | O => None
  | S fuel' =>
      match skip_ws s with
      | c :: r =>
          if (N_of_ascii c =? 93)%N then Some ([], r)
          else if (N_of_ascii c =? 44)%N then
            match pv r with
            | Some (v, r1) =>
                match parse_elements pv fuel' r1 with
                | Some (vs, r2) => Some (v :: vs, r2)
                | None => None
                end
            | None => None
            end
          else None
      | [] => None
      end
  end.

Definition parse_member (pv : parser json) (s : chars)
  : option ((string * json) * chars) :=
  match parse_string s with
  | Some (k, r) =>
      match skip_ws r with
      | c :: r1 =>
          if (N_of_ascii c =? 58)%N then
            match pv r1 with
            | Some (v, r2) => Some ((k, v), r2)
            | None => None
            end
          else None
      | [] => None
      end
  | None => None
  end.

(** What follows the first member of an object. *)
Fixpoint parse_members (pv : parser json) (fuel : nat) (s : chars)
  : option (list (string * json) * chars) :=
  match fuel with
  | O => None
  | S fuel' =>
      match skip_ws s with
      | c :: r =>
          if (N_of_ascii c =? 125)%N then Some ([], r)
          else if (N_of_ascii c =? 44)%N then
            match parse_member pv r with
            | Some (kv, r1) =>
                match parse_members pv fuel' r1 with
                | Some (kvs, r2) => Some (kv :: kvs, r2)
                | None => None
                end
            | None => None
            end
          else None
      | [] => None
      end
  end.

(** Defining a property that already exists overwrites its value in place;
    a new property goes last. *)
Fixpoint set_property (k : string) (v : json) (o : list (string * json))
  : list (string * json) :=
  match o with
  | [] => [(k, v)]
  | (k', v') :: o' =>
      if String.eqb k k' then (k, v) :: o' else (k', v') :: set_property k v o'
  end.

Definition build_object (members : list (string * json)) : list (string * json) :=
  fold_left (fun o kv => set_property (fst kv) (snd kv) o) members [].

Fixpoint parse_value (fuel : nat) (s : chars) : option (json * chars) :=
  match fuel with
  | O => None
  | S fuel' =>
      match skip_ws s with
      | [] => None
      | c :: r =>
          let n := N_of_ascii c in
          if is_num_char c then
            match parse_number (c :: r) with
            | Some (z, rest) => Some (JNum z, rest)
            | None => None
            end
          else if (n =? 34)%N then
            match parse_chars r with
            | Some (str, rest) => Some (JStr (string_of_list_ascii str), rest)
            | None => None
            end
          else if (n =? 91)%N then
            match skip_ws r with
            | c' :: r' =>
                if (N_of_ascii c' =? 93)%N then Some (JArr [], r')
                else
                  match parse_value fuel' r with
                  | Some (v, r1) =>
                      match parse_elements (parse_value fuel') fuel' r1 with
                      | Some (vs, r2) => Some (JArr (v :: vs), r2)
                      | None => None
                      end
                  | None => None
                  end
            | [] => None
            end
          else if (n =? 123)%N then
            match skip_ws r with
            | c' :: r' =>
                if (N_of_ascii c' =? 125)%N then Some (JObj [], r')
                else
                  match parse_member (parse_value fuel') r with
                  | Some (kv, r1) =>
                      match parse_members (parse_value fuel') fuel' r1 with
                      | Some (kvs, r2) => Some (JObj (build_object (kv :: kvs)), r2)
                      | None => None
                      end
                  | None => None
                  end
            | [] => None
            end
          else parse_literal (c :: r)
      end
  end.

(** The whole text must be one value, with white space around it at most.
    Every nested call starts at least one character further, so the length
    of the text bounds the depth of the recursion. *)
Definition parse (s : string) : option json :=
  let cs := list_ascii_of_string s in
  match parse_value (S (length cs)) cs with
  | Some (v, rest) =>
      match skip_ws rest with
      | [] => Some v
      | _ :: _ => None
      end
  | None => None
  end.


(** *** Well-formed values and the depth of the parser's recursion *)

(** A JavaScript object has each property once. *)
Fixpoint wf_json (v : json) : bool :=
  match v with
  | JArr items => forallb wf_json items
  | JObj members =>
      bool_decide (NoDup (map fst members))
      && forallb (fun kv => wf_json (snd kv)) members
  | _ => true
  end.

Fixpoint rank (v : json) : nat :=
  match v with
  | JArr items => S (length items + list_sum (map rank items))
  | JObj members =>
      S (length members + list_sum (map (fun kv => rank (snd kv)) members))
  | _ => 1
  end.

(** What may follow a value: nothing, or a character that cannot extend a
    number token. *)
Definition delimited (rest : chars) : bool :=
  match rest with
  | [] => true
  | c :: _ => negb (is_num_char c)
  end.

(** A parser reads a value back when it returns the value and leaves what
    follows its text. *)
Definition reads_back (pv : parser json) (v : json) : Prop :=
  forall rest, delimited rest = true ->
    pv (stringify_chars v ++ rest) = Some (v, rest).

Fixpoint json_induction (P : json -> Prop)
    (HNull : P JNull) (HBool : forall b, P (JBool b))
    (HNum : forall z, P (JNum z)) (HStr : forall s, P (JStr s))
    (HArr : forall items, Forall P items -> P (JArr items))
    (HObj : forall members, Forall (fun kv => P (snd kv)) members -> P (JObj members))
    (v : json) {struct v} : P v :=
  let rec := json_induction P HNull HBool HNum HStr HArr HObj in
  match v with
  | JNull => HNull
  | JBool b => HBool b
  | JNum z => HNum z
  | JStr s => HStr s
  | JArr items =>
      HArr items
        ((fix all (l : list json) : Forall P l :=
            match l with
            | [] => List.Forall_nil P
            | x :: l' => @List.Forall_cons _ P x l' (rec x) (all l')
            end) items)
  | JObj members =>
      HObj members
        ((fix all (l : list (string * json)) : Forall (fun kv => P (snd kv)) l :=
            match l with
            | [] => List.Forall_nil _
            | kv :: l' => @List.Forall_cons _ _ kv l' (rec (snd kv)) (all l')
            end) members)
  end.

End JSON.

Import JSON.

(** ** The page

    What the script reads and writes: its two global variables, the
    browser's [localStorage], the DOM nodes it touches, and the [fetch] calls
    it has issued so far. *)

Inductive role : Type := user | assistant | system.

(** A citation as the server sends it; the script only displays it. *)
Record source : Type := Source {
  filename : string;
  similarity : Q;
  content_preview : string }.

(** One child of [#chat-messages] as [addMessage] builds it: the role goes
    into the class name, the content opens the markup, and the sources block
    follows when there is at least one source. *)
Record message_item : Type := MessageItem {
  item_role : role;
  item_content : string;
  item_sources : list source }.

Record file : Type := File {
  file_name : string;
  file_type : string }.

Record document_record : Type := DocumentRecord {
  doc_filename : string;
  processed_at : string;
  chunk_count : Z }.

(** The markup of [#document-list]. *)
Inductive document_list_view : Type :=
| ListBlank
| ListPlaceholder
| ListItems (documents : list document_record).

(** The node [#auth-message]. *)
Record auth_message_view : Type := AuthMessage {
  textContent : string;
  className : string;
  displayed : bool }.

(** The value of a property read from an object. *)
Inductive property : Type :=
| undefined
| defined (v : json).

Record login_fields : Type := LoginFields {
  login_username : string;
  login_password : string }.

Record register_fields : Type := RegisterFields {
  register_username : string;
  register_email : string;
  register_fullname : string;
  register_password : string }.

(** The [fetch] calls of the script. *)
Inductive request : Type :=
| PostLogin (username password : string)
| PostRegister (username email full_name password : string)
| PostUpload (authorization : string) (files : list file)
| GetDocuments (authorization : string)
| PostAsk (authorization : string) (question : string) (top_k : Z)
| GetHistory (authorization : string) (limit : Z)
| DeleteHistory (authorization : string).

Record page : Type := Page {
  authToken : option string;             (* [null] is [None] *)
  currentUser : json;                    (* [null] is [JNull] *)
  localStorage : gmap string string;
  network : list request;                (* oldest first *)
  chat_messages : list message_item;     (* children of #chat-messages *)
  document_list : document_list_view;
  send_disabled : bool;                  (* #send-btn.disabled *)
  chat_input : string;                   (* #chat-input.value *)
  enter_key_listener : bool;             (* keypress listener on #chat-input *)
  login_form : login_fields;
  register_form : register_fields;
  active_tab : string;
  auth_message : auth_message_view;
  loading : bool;                        (* #loading is displayed *)
  main_visible : bool;                   (* #main-section shown, #auth-section hidden *)
  user_name : property;                  (* value assigned to #user-name.textContent *)
  file_input : list file }.

(** Assignment to one component of the page. *)

Definition set_authToken (x : option string) (st : page) : page :=
  {| authToken := x; currentUser := currentUser st;
     localStorage := localStorage st; network := network st;
     chat_messages := chat_messages st; document_list := document_list st;
     send_disabled := send_disabled st; chat_input := chat_input st;
     enter_key_listener := enter_key_listener st;
     login_form := login_form st; register_form := register_form st;
     active_tab := active_tab st; auth_message := auth_message st;
     loading := loading st; main_visible := main_visible st;
     user_name := user_name st; file_input := file_input st |}.

Definition set_currentUser (x : json) (st : page) : page :=
  {| authToken := authToken st; currentUser := x;
     localStorage := localStorage st; network := network st;
     chat_messages := chat_messages st; document_list := document_list st;
     send_disabled := send_disabled st; chat_input := chat_input st;
     enter_key_listener := enter_key_listener st;
     login_form := login_form st; register_form := register_form st;
     active_tab := active_tab st; auth_message := auth_message st;
     loading := loading st; main_visible := main_visible st;
     user_name := user_name st; file_input := file_input st |}.

Definition set_localStorage (x : gmap string string) (st : page) : page :=
  {| authToken := authToken st; currentUser := currentUser st;
     localStorage := x; network := network st;
     chat_messages := chat_messages st; document_list := document_list st;
     send_disabled := send_disabled st; chat_input := chat_input st;
     enter_key_listener := enter_key_listener st;
     login_form := login_form st; register_form := register_form st;
     active_tab := active_tab st; auth_message := auth_message st;
     loading := loading st; main_visible := main_visible st;
     user_name := user_name st; file_input := file_input st |}.

Definition set_network (x : list request) (st : page) : page :=
  {| authToken := authToken st; currentUser := currentUser st;
     localStorage := localStorage st; network := x;
     chat_messages := chat_messages st; document_list := document_list st;
     send_disabled := send_disabled st; chat_input := chat_input st;
     enter_key_listener := enter_key_listener st;
     login_form := login_form st; register_form := register_form st;
     active_tab := active_tab st; auth_message := auth_message st;
     loading := loading st; main_visible := main_visible st;
     user_name := user_name st; file_input := file_input st |}.

Definition set_chat_messages (x : list message_item) (st : page) : page :=
  {| authToken := authToken st; currentUser := currentUser st;
     localStorage := localStorage st; network := network st;
     chat_messages := x; document_list := document_list st;
     send_disabled := send_disabled st; chat_input := chat_input st;
     enter_key_listener := enter_key_listener st;
     login_form := login_form st; register_form := register_form st;
     active_tab := active_tab st; auth_message := auth_message st;
     loading := loading st; main_visible := main_visible st;
     user_name := user_name st; file_input := file_input st |}.

Definition set_document_list (x : document_list_view) (st : page) : page :=
  {| authToken := authToken st; currentUser := currentUser st;
     localStorage := localStorage st; network := network st;
     chat_messages := chat_messages st; document_list := x;
     send_disabled := send_disabled st; chat_input := chat_input st;
     enter_key_listener := enter_key_listener st;
     login_form := login_form st; register_form := register_form st;
     active_tab := active_tab st; auth_message := auth_message st;
     loading := loading st; main_visible := main_visible st;
     user_name := user_name st; file_input := file_input st |}.

Definition set_send_disabled (x : bool) (st : page) : page :=
  {| authToken := authToken st; currentUser := currentUser st;
     localStorage := localStorage st; network := network st;
     chat_messages := chat_messages st; document_list := document_list st;
     send_disabled := x; chat_input := chat_input st;
     enter_key_listener := enter_key_listener st;
     login_form := login_form st; register_form := register_form st;
     active_tab := active_tab st; auth_message := auth_message st;
     loading := loading st; main_visible := main_visible st;
     user_name := user_name st; file_input := file_input st |}.

Definition set_chat_input (x : string) (st : page) : page :=
  {| authToken := authToken st; currentUser := currentUser st;
     localStorage := localStorage st; network := network st;
     chat_messages := chat_messages st; document_list := document_list st;
     send_disabled := send_disabled st; chat_input := x;
     enter_key_listener := enter_key_listener st;
     login_form := login_form st; register_form := register_form st;
     active_tab := active_tab st; auth_message := auth_message st;
     loading := loading st; main_visible := main_visible st;
     user_name := user_name st; file_input := file_input st |}.

Definition set_enter_key_listener (x : bool) (st : page) : page :=
  {| authToken := authToken st; currentUser := currentUser st;
     localStorage := localStorage st; network := network st;
     chat_messages := chat_messages st; document_list := document_list st;
     send_disabled := send_disabled st; chat_input := chat_input st;
     enter_key_listener := x; login_form := login_form st;
     register_form := register_form st; active_tab := active_tab st;
     auth_message := auth_message st; loading := loading st;
     main_visible := main_visible st; user_name := user_name st;
     file_input := file_input st |}.

Definition set_login_form (x : login_fields) (st : page) : page :=
  {| authToken := authToken st; currentUser := currentUser st;
     localStorage := localStorage st; network := network st;
     chat_messages := chat_messages st; document_list := document_list st;
     send_disabled := send_disabled st; chat_input := chat_input st;
     enter_key_listener := enter_key_listener st; login_form := x;
     register_form := register_form st; active_tab := active_tab st;
     auth_message := auth_message st; loading := loading st;
     main_visible := main_visible st; user_name := user_name st;
     file_input := file_input st |}.

Definition set_register_form (x : register_fields) (st : page) : page :=
  {| authToken := authToken st; currentUser := currentUser st;
     localStorage := localStorage st; network := network st;
     chat_messages := chat_messages st; document_list := document_list st;
     send_disabled := send_disabled st; chat_input := chat_input st;
     enter_key_listener := enter_key_listener st;
     login_form := login_form st; register_form := x;
     active_tab := active_tab st; auth_message := auth_message st;
     loading := loading st; main_visible := main_visible st;
     user_name := user_name st; file_input := file_input st |}.

Definition set_active_tab (x : string) (st : page) : page :=
  {| authToken := authToken st; currentUser := currentUser st;
     localStorage := localStorage st; network := network st;
     chat_messages := chat_messages st; document_list := document_list st;
     send_disabled := send_disabled st; chat_input := chat_input st;
     enter_key_listener := enter_key_listener st;
     login_form := login_form st; register_form := register_form st;
     active_tab := x; auth_message := auth_message st; loading := loading st;
     main_visible := main_visible st; user_name := user_name st;
     file_input := file_input st |}.

Definition set_auth_message (x : auth_message_view) (st : page) : page :=
  {| authToken := authToken st; currentUser := currentUser st;
     localStorage := localStorage st; network := network st;
     chat_messages := chat_messages st; document_list := document_list st;
     send_disabled := send_disabled st; chat_input := chat_input st;
     enter_key_listener := enter_key_listener st;
     login_form := login_form st; register_form := register_form st;
     active_tab := active_tab st; auth_message := x; loading := loading st;
     main_visible := main_visible st; user_name := user_name st;
     file_input := file_input st |}.

Definition set_loading (x : bool) (st : page) : page :=
  {| authToken := authToken st; currentUser := currentUser st;
     localStorage := localStorage st; network := network st;
     chat_messages := chat_messages st; document_list := document_list st;
     send_disabled := send_disabled st; chat_input := chat_input st;
     enter_key_listener := enter_key_listener st;
     login_form := login_form st; register_form := register_form st;
     active_tab := active_tab st; auth_message := auth_message st;
     loading := x; main_visible := main_visible st;
     user_name := user_name st; file_input := file_input st |}.

Definition set_main_visible (x : bool) (st : page) : page :=
  {| authToken := authToken st; currentUser := currentUser st;
     localStorage := localStorage st; network := network st;
     chat_messages := chat_messages st; document_list := document_list st;
     send_disabled := send_disabled st; chat_input := chat_input st;
     enter_key_listener := enter_key_listener st;
     login_form := login_form st; register_form := register_form st;
     active_tab := active_tab st; auth_message := auth_message st;
     loading := loading st; main_visible := x; user_name := user_name st;
     file_input := file_input st |}.

Definition set_user_name (x : property) (st : page) : page :=
  {| authToken := authToken st; currentUser := currentUser st;
     localStorage := localStorage st; network := network st;
     chat_messages := chat_messages st; document_list := document_list st;
     send_disabled := send_disabled st; chat_input := chat_input st;
     enter_key_listener := enter_key_listener st;
     login_form := login_form st; register_form := register_form st;
     active_tab := active_tab st; auth_message := auth_message st;
     loading := loading st; main_visible := main_visible st; user_name := x;
     file_input := file_input st |}.

Definition set_file_input (x : list file) (st : page) : page :=
  {| authToken := authToken st; currentUser := currentUser st;
     localStorage := localStorage st; network := network st;
     chat_messages := chat_messages st; document_list := document_list st;
     send_disabled := send_disabled st; chat_input := chat_input st;
     enter_key_listener := enter_key_listener st;
     login_form := login_form st; register_form := register_form st;
     active_tab := active_tab st; auth_message := auth_message st;
     loading := loading st; main_visible := main_visible st;
     user_name := user_name st; file_input := x |}.

(** ** Platform operations the script calls *)

Definition getItem (k : string) (st : page) : option string :=
  localStorage st !! k.

Definition setItem (k v : string) (st : page) : page :=
  set_localStorage (<[k := v]> (localStorage st)) st.

Definition removeItem (k : string) (st : page) : page :=
  set_localStorage (delete k (localStorage st)) st.

Definition fetch (r : request) (st : page) : page :=
  set_network (network st ++ [r]) st.

(** A string is falsy when it is empty. *)
Definition is_empty (s : string) : bool := String.eqb s EmptyString.

(** The value of an item read from storage when it is truthy: [null] and the
    empty string are falsy. *)
Definition truthy_item (o : option string) : option string :=
  match o with
  | Some s => if is_empty s then None else Some s
  | None => None
  end.

Definition truthy (v : json) : bool :=
  match v with
  | JNull => false
  | JBool b => b
  | JNum z => negb (Z.eqb z 0)
  | JStr s => negb (is_empty s)
  | JArr _ | JObj _ => true
  end.

Fixpoint own_property (k : string) (members : list (string * json)) : property :=
  match members with
  | [] => undefined
  | (k', v) :: members' =>
      if String.eqb k k' then defined v else own_property k members'
  end.

(** [v.k] for a value that is not [null]; only objects carry the
    properties a JSON text gives them. *)
Definition get_property (k : string) (v : json) : property :=
  match v with
  | JObj members => own_property k members
  | _ => undefined
  end.

(** [`Bearer ${authToken}`] *)
Definition bearer (st : page) : string :=
  "Bearer " ++ match authToken st with
               | Some t => t
               | None => "null"
               end.

(** [String.prototype.trim] on code units below 256: the white space is
    tab, line feed, vertical tab, form feed, carriage return, space and the
    no-break space. *)
Definition is_js_space (c : ascii) : bool :=
  let n := N_of_ascii c in
  ((9 <=? n) && (n <=? 13) || (n =? 32) || (n =? 160))%N.

Fixpoint trim_start (s : list ascii) : list ascii :=
  match s with
  | c :: r => if is_js_space c then trim_start r else s
  | [] => []
  end.

Definition trim (s : string) : string :=
  string_of_list_ascii
    (rev (trim_start (rev (trim_start (list_ascii_of_string s))))).

Definition number_text (n : nat) : string :=
  string_of_list_ascii (digits (Z.of_nat n)).

(** How a handler ends: it returns, or an exception leaves it uncaught. *)
Inductive exception : Type := SyntaxError.

Inductive completion : Type :=
| Normal
| Throw (e : exception).

(** ** Utility functions (lines 346-364) *)

Definition showMessage (message type : string) (st : page) : page :=
  set_auth_message
    {| textContent := message;
       className := "message " ++ type;
       displayed := true |} st.

(** Also what the five-second timer of [showMessage] does when it fires. *)
Definition hideMessage (st : page) : page :=
  set_auth_message
    {| textContent := textContent (auth_message st);
       className := className (auth_message st);
       displayed := false |} st.

Definition showLoading (show : bool) (st : page) : page :=
  set_loading show st.

(** ** Chat functions (lines 237-344)

    An [async] function [f] is two functions: [f] runs when the event fires,
    up to the first [await]; [f_resume] runs when the awaited [fetch] and
    [response.json()] have settled, on what they produced. *)

(** [sources && sources.length > 0] decides whether the block is there;
    [null] and the empty list give the same markup. *)
Definition addMessage (r : role) (content : string)
    (sources : option (list source)) (st : page) : page :=
  let shown := match sources with
               | Some l => l
               | None => []
               end in
  set_chat_messages
    (chat_messages st
     ++ [{| item_role := r; item_content := content; item_sources := shown |}])
    st.

Definition sendMessage (st : page) : page :=
  let message := trim (chat_input st) in
  if is_empty message then st
  else
    let st := set_chat_input EmptyString st in
    let st := set_send_disabled true st in
    let st := addMessage user message None st in
    fetch (PostAsk (bearer st) message 5) st.

(** What the [try] block of [sendMessage] got: an answer with a success
    status, a detail with another status, or an exception (the request
    failed, or the body was not JSON). *)
Inductive ask_outcome : Type :=
| AskAnswer (answer : string) (sources : option (list source))
| AskRejected (detail : string)
| AskError.

Definition sendMessage_resume (r : ask_outcome) (st : page) : page :=
  let st :=
    match r with
    | AskAnswer answer sources => addMessage assistant answer sources st
    | AskRejected detail => addMessage assistant ("Error: " ++ detail) None st
    | AskError =>
        addMessage assistant
          "Sorry, there was a connection error. Please try again." None st
    end in
  set_send_disabled false st.

Definition loadChatHistory (st : page) : page :=
  fetch (GetHistory (bearer st) 20) st.

Record history_item : Type := HistoryItem {
  message : string;
  response : string;
  sources : option (list source) }.

(** [result.history] is [None] when the body has no such field. *)
Inductive history_outcome : Type :=
| HistoryResult (history : option (list history_item))
| HistoryError.

Definition show_exchange (st : page) (item : history_item) : page :=
  addMessage assistant (response item) (sources item)
    (addMessage user (message item) None st).

Definition loadChatHistory_resume (r : history_outcome) (st : page) : page :=
  match r with
  | HistoryResult (Some (item :: items)) =>
      fold_left show_exchange (item :: items) (set_chat_messages [] st)
  | HistoryResult _ => st
  | HistoryError => st
  end.

(** [confirmed] is the answer to the [confirm] dialog. *)
Definition clearChatHistory (confirmed : bool) (st : page) : page :=
  if confirmed then fetch (DeleteHistory (bearer st)) st else st.

Inductive clear_outcome : Type :=
| ClearResponse (ok : bool)
| ClearError.

Definition clearChatHistory_resume (r : clear_outcome) (st : page) : page :=
  match r with
  | ClearResponse true =>
      addMessage system "Chat history cleared successfully!" None
        (set_chat_messages [] st)
  | ClearResponse false => st
  | ClearError =>
      addMessage system "Error clearing chat history. Please try again." None st
  end.

(** ** File upload functions (lines 165-235) *)

Definition loadDocuments (st : page) : page :=
  fetch (GetDocuments (bearer st)) st.

Inductive documents_outcome : Type :=
| DocumentsResult (documents : option (list document_record))
| DocumentsError.

Definition loadDocuments_resume (r : documents_outcome) (st : page) : page :=
  match r with
  | DocumentsResult (Some (d :: ds)) => set_document_list (ListItems (d :: ds)) st
  | DocumentsResult _ => set_document_list ListPlaceholder st
  | DocumentsError => st
  end.

Definition is_pdf (f : file) : bool :=
  String.eqb (file_type f) "application/pdf".

(** The [forEach] that fills the form data. *)
Definition append_pdf (formData : list file) (f : file) : list file :=
  if is_pdf f then formData ++ [f] else formData.

Definition handleFileUpload (st : page) : page :=
  let files := file_input st in
  if (length files =? 0)%nat then st
  else
    let formData := fold_left append_pdf files [] in
    match formData with
    | [] => showMessage "Please select PDF files only" "error" st
    | _ :: _ =>
        let st := showLoading true st in
        fetch (PostUpload (bearer st) formData) st
    end.

Inductive upload_outcome : Type :=
| UploadProcessed (documents : list json)
| UploadRejected (detail : string)
| UploadError.

Definition handleFileUpload_resume (r : upload_outcome) (st : page) : page :=
  let st :=
    match r with
    | UploadProcessed documents =>
        loadDocuments
          (addMessage system
             ("✅ Successfully processed " ++ number_text (length documents)
              ++ " documents!") None st)
    | UploadRejected detail => addMessage system ("❌ Error: " ++ detail) None st
    | UploadError =>
        addMessage system "❌ Error uploading documents. Please try again." None st
    end in
  set_file_input [] (showLoading false st).

(** ** Authentication functions (lines 27-163) *)

(** [tab] is one of the two tabs of the page, [login] or [register]; for
    another name line 34 finds no element and throws, which is not
    modelled. *)
Definition switchTab (tab : string) (st : page) : page :=
  hideMessage (set_active_tab tab st).

Definition showMainApp (st : page) : page :=
  let st := set_main_visible true st in
  if truthy (currentUser st)
  then set_user_name (get_property "full_name" (currentUser st)) st
  else st.

Definition handleLogin (st : page) : page :=
  let username := login_username (login_form st) in
  let password := login_password (login_form st) in
  if is_empty username || is_empty password then
    showMessage "Please enter both username and password" "error" st
  else
    let st := showLoading true st in
    fetch (PostLogin username password) st.

(** What the [try] block of [handleLogin] got: with a success status, the
    body the server sends ([access_token] a string, [user_info] a JSON
    value); with another status, a body whose [detail] is [None] when it has
    no such field; or an exception (the request failed, or the body was not
    JSON). *)
Inductive login_outcome : Type :=
| LoginGranted (access_token : string) (user_info : json)
| LoginRejected (detail : option string)
| LoginError.

(** [detail || fallback] *)
Definition detail_or (detail : option string) (fallback : string) : string :=
  match truthy_item detail with
  | Some d => d
  | None => fallback
  end.

(** Lines 71-72: the session goes to storage. *)
Definition save (st : page) : page :=
  let st :=
    setItem "authToken"
      match authToken st with
      | Some t => t
      | None => "null"
      end st in
  setItem "currentUser" (stringify (currentUser st)) st.

Definition handleLogin_resume (r : login_outcome) (st : page) : page :=
  let st :=
    match r with
    | LoginGranted access_token user_info =>
        let st := set_authToken (Some access_token) st in
        let st := set_currentUser user_info st in
        let st := save st in
        let st := showMainApp st in
        let st := loadChatHistory st in
        loadDocuments st
    | LoginRejected detail => showMessage (detail_or detail "Login failed") "error" st
    | LoginError => showMessage "Network error. Please try again." "error" st
    end in
  showLoading false st.

Definition handleRegister (st : page) : page :=
  let username := register_username (register_form st) in
  let email := register_email (register_form st) in
  let fullName := register_fullname (register_form st) in
  let password := register_password (register_form st) in
  if is_empty username || is_empty email || is_empty fullName || is_empty password
  then showMessage "Please fill in all fields" "error" st
  else if (String.length password <? 6)%nat
  then showMessage "Password must be at least 6 characters" "error" st
  else
    let st := showLoading true st in
    fetch (PostRegister username email fullName password) st.

Inductive register_outcome : Type :=
| RegisterAccepted
| RegisterRejected (detail : option string)
| RegisterError.

Definition blank_register_form : register_fields :=
  {| register_username := EmptyString; register_email := EmptyString;
     register_fullname := EmptyString; register_password := EmptyString |}.

Definition blank_login_form : login_fields :=
  {| login_username := EmptyString; login_password := EmptyString |}.

Definition handleRegister_resume (r : register_outcome) (st : page) : page :=
  let st :=
    match r with
    | RegisterAccepted =>
        let st := showMessage "Registration successful! Please sign in." "success" st in
        let st := switchTab "login" st in
        set_register_form blank_register_form st
    | RegisterRejected detail =>
        showMessage (detail_or detail "Registration failed") "error" st
    | RegisterError => showMessage "Network error. Please try again." "error" st
    end in
  showLoading false st.

(** The forms of the page are the login form and the register form. *)
Definition logout (st : page) : page :=
  let st := set_authToken None st in
  let st := set_currentUser JNull st in
  let st := removeItem "authToken" st in
  let st := removeItem "currentUser" st in
  let st := set_main_visible false st in
  let st := set_chat_messages [] st in
  let st := set_document_list ListBlank st in
  set_register_form blank_register_form (set_login_form blank_login_form st).

(** ** Start of the page (lines 1-25) *)

(** Lines 2-3: the script starts with both globals [null]. *)
Definition script_start (st : page) : page :=
  set_currentUser JNull (set_authToken None st).

(** Lines 8-17.  [JSON.parse] stands outside any [try]: when it throws, the
    handler is left at that point. *)
Definition restore (st : page) : completion * page :=
  let savedToken := getItem "authToken" st in
  let savedUser := getItem "currentUser" st in
  match truthy_item savedToken, truthy_item savedUser with
  | Some token, Some text =>
      let st := set_authToken (Some token) st in
      match parse text with
      | None => (Throw SyntaxError, st)
      | Some u =>
          let st := set_currentUser u st in
          let st := showMainApp st in
          let st := loadChatHistory st in
          (Normal, loadDocuments st)
      end
  | _, _ => (Normal, st)
  end.

Definition DOMContentLoaded (st : page) : completion * page :=
  match restore st with
  | (Normal, st) => (Normal, set_enter_key_listener true st)
  | (Throw e, st) => (Throw e, st)
  end.

(** Loading the page over a browser state: the script starts, then the
    handler runs. *)
Definition load (st : page) : completion * page :=
  DOMContentLoaded (script_start st).

(** A keypress of Enter in the chat input, when the listener is there. *)
Definition enter_key (st : page) : page :=
  if enter_key_listener st then sendMessage st else st.

(** ** Observations used in the statements *)

(** The session the page holds in memory. *)
Definition session (st : page) : option (string * json) :=
  match authToken st with
  | Some t => Some (t, currentUser st)
  | None => None
  end.

(** Credential and identity are both [null] or both set, in memory. *)
Definition paired_in_memory (st : page) : Prop :=
  authToken st = None <-> currentUser st = JNull.

(** Both entries are in storage, or neither. *)
Definition paired_in_storage (st : page) : Prop :=
  getItem "authToken" st = None <-> getItem "currentUser" st = None.

(** The reconstruction the specification describes: for each history item,
    in order, the user message with the recorded question and then the
    assistant message with the recorded response and sources. *)
Definition rebuilt (history : list history_item) : list message_item :=
  flat_map
    (fun item =>
       [ {| item_role := user; item_content := message item;
            item_sources := [] |};
         {| item_role := assistant; item_content := response item;
            item_sources := match sources item with
                            | Some l => l
                            | None => []
                            end |} ])
    history.

(** A page nobody has used yet. *)
Definition blank_page : page :=
  {| authToken := None; currentUser := JNull; localStorage := ∅;
     network := []; chat_messages := []; document_list := ListBlank;
     send_disabled := false; chat_input := EmptyString;
     enter_key_listener := false;
     login_form := blank_login_form; register_form := blank_register_form;
     active_tab := "login";
     auth_message := {| textContent := EmptyString; className := "message";
                        displayed := false |};
     loading := false; main_visible := false; user_name := undefined;
     file_input := [] |}.


(** ** Concrete pages used as examples *)

Definition ada : json := JObj [("full_name", JStr "Ada")].

(** Both entries are in storage and the identity is not JSON. *)
Definition malformed_page : page :=
  set_localStorage
    (<["currentUser" := "{bad"]> (<["authToken" := "tok1"]> ∅)) blank_page.

(** A session whose credential is the empty string. *)
Definition empty_credential_page : page :=
  set_currentUser ada (set_authToken (Some EmptyString) blank_page).

Definition signed_in_page : page :=
  handleLogin_resume (LoginGranted "tok1" ada) blank_page.

(** The user has asked "hi" and the request is in flight. *)
Definition asking_page : page :=
  sendMessage (set_chat_input "hi" signed_in_page).

(** The answer has arrived. *)
Definition answered_page : page :=
  sendMessage_resume (AskAnswer "A" None) asking_page.

Definition a_pdf : file := {| file_name := "a.pdf"; file_type := "application/pdf" |}.
Definition b_txt : file := {| file_name := "b.txt"; file_type := "text/plain" |}.
Definition c_pdf : file := {| file_name := "c.pdf"; file_type := "application/pdf" |}.

Definition s1 : source :=
  {| filename := "a.pdf"; similarity := 9 # 10; content_preview := "..." |}.

Definition two_exchanges : list history_item :=
  [ {| message := "Q1"; response := "A1"; sources := Some [] |};
    {| message := "Q2"; response := "A2"; sources := Some [s1] |} ].
(** ** Events of the page

    Everything that can happen to a loaded page: the user edits an input,
    clicks or presses a key, a five-second timer fires, or an awaited
    response settles.  [handle] is what the script does on each. *)

Inductive event : Type :=
| ChatTyped (s : string)
| LoginTyped (f : login_fields)
| RegisterTyped (f : register_fields)
| FilesChosen (fs : list file)
| LoginSubmitted
| LoginSettled (r : login_outcome)
| RegisterSubmitted
| RegisterSettled (r : register_outcome)
| LogoutClicked
| TabClicked (tab : string)
| MessageTimerFired
| UploadSettled (r : upload_outcome)
| DocumentsSettled (r : documents_outcome)
| HistorySettled (r : history_outcome)
| ClearClicked (confirmed : bool)
| ClearSettled (r : clear_outcome)
| SendClicked
| EnterPressed
| AskSettled (r : ask_outcome).

Definition handle (e : event) (st : page) : page :=
  match e with
  | ChatTyped s => set_chat_input s st
  | LoginTyped f => set_login_form f st
  | RegisterTyped f => set_register_form f st
  | FilesChosen fs => handleFileUpload (set_file_input fs st)
  | LoginSubmitted => handleLogin st
  | LoginSettled r => handleLogin_resume r st
  | RegisterSubmitted => handleRegister st
  | RegisterSettled r => handleRegister_resume r st
  | LogoutClicked => logout st
  | TabClicked tab => switchTab tab st
  | MessageTimerFired => hideMessage st
  | UploadSettled r => handleFileUpload_resume r st
  | DocumentsSettled r => loadDocuments_resume r st
  | HistorySettled r => loadChatHistory_resume r st
  | ClearClicked confirmed => clearChatHistory confirmed st
  | ClearSettled r => clearChatHistory_resume r st
  | SendClicked => sendMessage st
  | EnterPressed => enter_key st
  | AskSettled r => sendMessage_resume r st
  end.

Definition run (events : list event) (st : page) : page :=
  fold_left (fun st e => handle e st) events st.

(** The two events that assign the globals and write to storage. *)
Definition changes_session (e : event) : bool :=
  match e with
  | LoginSettled (LoginGranted _ _) => true
  | LogoutClicked => true
  | _ => false
  end.

(** Storage holds what memory holds: the credential and the text of the
    identity when there is a credential, neither entry when there is none. *)
Definition mirrored (st : page) : Prop :=
  match authToken st with
  | Some t =>
      getItem "authToken" st = Some t
      /\ getItem "currentUser" st = Some (stringify (currentUser st))
  | None =>
      getItem "authToken" st = None /\ getItem "currentUser" st = None
  end.

(** The [Authorization] header of a request, when it has one. *)
Definition authorization_header (r : request) : option string :=
  match r with
  | PostLogin _ _ => None
  | PostRegister _ _ _ _ => None
  | PostUpload a _ => Some a
  | GetDocuments a => Some a
  | PostAsk a _ _ => Some a
  | GetHistory a _ => Some a
  | DeleteHistory a => Some a
  end.

(** The page after [st] as far as the session goes. *)
Definition same_session (st st' : page) : Prop :=
  authToken st' = authToken st
  /\ currentUser st' = currentUser st
  /\ localStorage st' = localStorage st.

(** More example pages. *)

Definition typed_login_page : page :=
  set_login_form {| login_username := "ada"; login_password := "secret" |}
    blank_page.

(** A page loaded over the storage a login left. *)
Definition reloaded_page : page := snd (load (save signed_in_page)).

(** A second question is typed while the first is in flight. *)
Definition impatient_page : page :=
  set_chat_input "again" (set_enter_key_listener true asking_page).



(** Lines 8-25 with the browser's [JSON.parse] as a parameter: what the
    handler does in a browser whose [JSON.parse] is [parse_json] ([None]
    when it throws).  With the modelled parser these are [restore],
    [DOMContentLoaded] and [load]. *)
Definition restore_with (parse_json : string -> option json) (st : page)
  : completion * page :=
  let savedToken := getItem "authToken" st in
  let savedUser := getItem "currentUser" st in
  match truthy_item savedToken, truthy_item savedUser with
  | Some token, Some text =>
      let st := set_authToken (Some token) st in
      match parse_json text with
      | None => (Throw SyntaxError, st)
      | Some u =>
          let st := set_currentUser u st in
          let st := showMainApp st in
          let st := loadChatHistory st in
          (Normal, loadDocuments st)
      end
  | _, _ => (Normal, st)
  end.

Definition DOMContentLoaded_with (parse_json : string -> option json)
    (st : page) : completion * page :=
  match restore_with parse_json st with
  | (Normal, st) => (Normal, set_enter_key_listener true st)
  | (Throw e, st) => (Throw e, st)
  end.

Definition load_with (parse_json : string -> option json) (st : page)
  : completion * page :=
  DOMContentLoaded_with parse_json (script_start st).

(** ** Facts about the JSON codec *)

Section JSONFacts.

Lemma skip_ws_stop (c : ascii) (r : chars) :
  is_ws c = false -> skip_ws (c :: r) = c :: r.
Proof. intros H. simpl. now rewrite H. Qed.

Lemma num_char_not_ws (c : ascii) : is_num_char c = true -> is_ws c = false.
Proof.
  destruct c as [[] [] [] [] [] [] [] []]; vm_compute; congruence.
Qed.

(** One escaped character reads back as the character. *)
Lemma parse_chars_escape_char (c : ascii) (r : chars) :
  parse_chars (escape_char c ++ r) = push c (parse_chars r).
Proof.
  destruct c as [[] [] [] [] [] [] [] []]; reflexivity.
Qed.

Lemma parse_chars_escaped (s rest : chars) :
  parse_chars (flat_map escape_char s ++ dquote :: rest) = Some (s, rest).
Proof.
  induction s as [|c s IH]; [reflexivity|].
  simpl flat_map. rewrite <- app_assoc, parse_chars_escape_char, IH.
  reflexivity.
Qed.

Lemma parse_chars_quote (s : string) (rest : chars) :
  parse_chars (flat_map escape_char (list_ascii_of_string s) ++ [dquote] ++ rest)
  = Some (list_ascii_of_string s, rest).
Proof. apply parse_chars_escaped. Qed.

Lemma uint_num_chars (d : Decimal.uint) :
  forallb is_num_char (list_ascii_of_string (NilEmpty.string_of_uint d)) = true.
Proof. induction d; simpl; auto. Qed.

Lemma digits_num_chars (z : Z) : forallb is_num_char (digits z) = true.
Proof.
  unfold digits. destruct (Z.to_int z) as [d|d]; simpl.
  - apply uint_num_chars.
  - apply uint_num_chars.
Qed.

Lemma digits_head (z : Z) :
  exists c t, digits z = c :: t /\ is_num_char c = true.
Proof.
  pose proof (digits_num_chars z) as Hall.
  destruct (digits z) as [|c t] eqn:E.
  - exfalso. unfold digits in E. destruct z as [|p|p]; simpl in E.
    + discriminate.
    + pose proof (Unsigned.to_uint_nonnil p) as Hn.
      destruct (Pos.to_uint p); try discriminate. now apply Hn.
    + discriminate.
  - exists c, t. split; [reflexivity|].
    simpl in Hall. now apply andb_prop in Hall.
Qed.

Lemma span_num_app (tok rest : chars) :
  forallb is_num_char tok = true -> delimited rest = true ->
  span_num (tok ++ rest) = (tok, rest).
Proof.
  intros Htok Hrest. induction tok as [|c tok IH]; simpl.
  - destruct rest as [|c r]; [reflexivity|]. simpl in *.
    destruct (is_num_char c); [discriminate|reflexivity].
  - simpl in Htok. apply andb_prop in Htok as [Hc Htok].
    rewrite Hc, (IH Htok). reflexivity.
Qed.

Lemma parse_number_digits (z : Z) (rest : chars) :
  delimited rest = true -> parse_number (digits z ++ rest) = Some (z, rest).
Proof.
  intros Hrest. unfold parse_number.
  rewrite (span_num_app _ _ (digits_num_chars z) Hrest).
  unfold digits at 1. rewrite string_of_list_ascii_of_string, NilEmpty.isi.
  cbv zeta. rewrite DecimalZ.of_to.
  destruct (decide (digits z = digits z)) as [_|Hne]; [reflexivity|].
  now elim Hne.
Qed.

(** Every text starts with a character that is neither white space nor a
    closing bracket. *)
Lemma stringify_head (v : json) :
  exists c t, stringify_chars v = c :: t /\ is_ws c = false
              /\ (N_of_ascii c =? 93)%N = false.
Proof.
  destruct v as [|[]|z|s|items|members]; simpl;
    try (eexists _, _; repeat split; reflexivity).
  destruct (digits_head z) as (c & t & -> & Hc).
  exists c, t. split; [reflexivity|]. split; [now apply num_char_not_ws|].
  revert Hc. destruct c as [[] [] [] [] [] [] [] []]; vm_compute; congruence.
Qed.

Lemma delimited_after_first (texts : list chars) (c : ascii) (rest : chars) :
  is_num_char c = false -> delimited (after_first texts ++ c :: rest) = true.
Proof.
  intros Hc. destruct texts; simpl; [now rewrite Hc | reflexivity].
Qed.

Lemma after_first_cons (t : chars) (ts : list chars) :
  after_first (t :: ts) = ","%char :: t ++ after_first ts.
Proof. reflexivity. Qed.

Lemma parse_elements_text (pv : parser json) (items : list json) :
  Forall (reads_back pv) items ->
  forall fuel rest, (length items < fuel)%nat ->
    parse_elements pv fuel
      (after_first (map stringify_chars items) ++ "]"%char :: rest)
    = Some (items, rest).
Proof.
  induction 1 as [|v items Hv _ IH]; intros fuel rest Hfuel.
  - destruct fuel; [simpl in Hfuel; lia|]. reflexivity.
  - destruct fuel as [|fuel]; [simpl in Hfuel; lia|].
    simpl in Hfuel. rewrite map_cons, after_first_cons.
    rewrite <- app_comm_cons, <- app_assoc.
    cbn [parse_elements]. rewrite skip_ws_stop by reflexivity.
    change (N_of_ascii "," =? 93)%N with false.
    change (N_of_ascii "," =? 44)%N with true. cbv iota.
    rewrite Hv by (now apply delimited_after_first).
    rewrite IH by lia. reflexivity.
Qed.

Lemma parse_string_quote (k : string) (rest : chars) :
  parse_string (quote k ++ rest) = Some (k, rest).
Proof.
  unfold parse_string, quote. rewrite <- app_comm_cons.
  rewrite skip_ws_stop by reflexivity.
  change (N_of_ascii dquote =? 34)%N with true. cbv iota.
  rewrite <- app_assoc, parse_chars_quote, string_of_list_ascii_of_string.
  reflexivity.
Qed.

Lemma parse_member_text (pv : parser json) (k : string) (v : json) (rest : chars) :
  reads_back pv v -> delimited rest = true ->
  parse_member pv (member_text k (stringify_chars v) ++ rest)
  = Some ((k, v), rest).
Proof.
  intros Hv Hrest. unfold parse_member, member_text.
  rewrite <- app_assoc, parse_string_quote, <- app_comm_cons.
  rewrite skip_ws_stop by reflexivity.
  change (N_of_ascii ":" =? 58)%N with true. cbv iota.
  now rewrite Hv.
Qed.

Lemma parse_members_text (pv : parser json) (members : list (string * json)) :
  Forall (fun kv => reads_back pv (snd kv)) members ->
  forall fuel rest, (length members < fuel)%nat ->
    parse_members pv fuel
      (after_first
         (map (fun kv => member_text (fst kv) (stringify_chars (snd kv))) members)
       ++ "}"%char :: rest)
    = Some (members, rest).
Proof.
  induction 1 as [|[k v] members Hv _ IH]; intros fuel rest Hfuel.
  - destruct fuel; [simpl in Hfuel; lia|]. reflexivity.
  - destruct fuel as [|fuel]; [simpl in Hfuel; lia|].
    simpl in Hfuel, Hv. rewrite map_cons, after_first_cons.
    cbn [fst snd]. rewrite <- app_comm_cons, <- app_assoc.
    cbn [parse_members]. rewrite skip_ws_stop by reflexivity.
    change (N_of_ascii "," =? 125)%N with false.
    change (N_of_ascii "," =? 44)%N with true. cbv iota.
    rewrite parse_member_text by (auto using delimited_after_first).
    rewrite IH by lia. reflexivity.
Qed.

Lemma set_property_fresh (k : string) (v : json) (o : list (string * json)) :
  k ∉ map fst o -> set_property k v o = o ++ [(k, v)].
Proof.
  induction o as [|[k' v'] o IH]; intros Hk; [reflexivity|].
  simpl in *. apply not_elem_of_cons in Hk as [Hne Hk].
  destruct (String.eqb_spec k k') as [->|_]; [now elim Hne|].
  now rewrite IH.
Qed.

Lemma build_object_from (members o : list (string * json)) :
  NoDup (map fst (o ++ members)) ->
  fold_left (fun o kv => set_property (fst kv) (snd kv) o) members o
  = o ++ members.
Proof.
  revert o. induction members as [|[k v] members IH]; intros o Hnd.
  - now rewrite app_nil_r.
  - cbn [fold_left fst snd]. rewrite set_property_fresh.
    + rewrite IH; rewrite <- app_assoc; [reflexivity | exact Hnd].
    + rewrite map_app in Hnd. apply NoDup_app in Hnd as (_ & Hdis & _).
      intros Hin. apply (Hdis k Hin). simpl. left.
Qed.

Lemma build_object_distinct (members : list (string * json)) :
  NoDup (map fst members) -> build_object members = members.
Proof. intros Hnd. unfold build_object. now rewrite build_object_from. Qed.

Lemma rank_elem (items : list json) (v : json) :
  v ∈ items -> (rank v <= list_sum (map rank items))%nat.
Proof.
  induction 1 as [v items|v w items _ IH]; simpl; lia.
Qed.

Lemma rank_member (members : list (string * json)) (kv : string * json) :
  kv ∈ members ->
  (rank (snd kv) <= list_sum (map (fun kv => rank (snd kv)) members))%nat.
Proof.
  induction 1 as [kv members|kv w members _ IH]; simpl; lia.
Qed.

(** The parser reads a printed value back, whatever follows it. *)
Lemma parse_value_stringify (v : json) :
  wf_json v = true ->
  forall fuel rest, (rank v <= fuel)%nat -> delimited rest = true ->
    parse_value fuel (stringify_chars v ++ rest) = Some (v, rest).
Proof.
  induction v as [|b|z|s|items IH|members IH] using json_induction;
    intros Hwf fuel rest Hfuel Hrest;
    (destruct fuel as [|fuel]; [simpl in Hfuel; lia|]).
  - reflexivity.
  - destruct b; reflexivity.
  - destruct (digits_head z) as (c & t & E & Hc).
    pose proof (parse_number_digits z rest Hrest) as Hn.
    cbn [stringify_chars]. rewrite E in Hn |- *.
    rewrite <- app_comm_cons in Hn |- *. cbn [parse_value].
    rewrite skip_ws_stop by (now apply num_char_not_ws).
    cbv zeta. now rewrite Hc, Hn.
  - cbn [stringify_chars]. unfold quote. rewrite <- app_comm_cons.
    cbn [parse_value]. rewrite skip_ws_stop by reflexivity. cbv zeta.
    change (is_num_char dquote) with false.
    change (N_of_ascii dquote =? 34)%N with true. cbv iota.
    rewrite <- app_assoc, parse_chars_quote, string_of_list_ascii_of_string.
    reflexivity.
  - cbn [stringify_chars]. rewrite <- app_comm_cons, <- app_assoc.
    cbn [parse_value]. rewrite skip_ws_stop by reflexivity. cbv zeta.
    change (is_num_char "[") with false.
    change (N_of_ascii "[" =? 34)%N with false.
    change (N_of_ascii "[" =? 91)%N with true. cbv iota.
    destruct items as [|v items]; [reflexivity|].
    cbn [map comma_separated]. rewrite <- app_assoc.
    destruct (stringify_head v) as (c & t & E & Hws & Hc).
    rewrite E at 1. rewrite <- app_comm_cons, skip_ws_stop by exact Hws.
    rewrite Hc.
    cbn [wf_json forallb] in Hwf. apply andb_prop in Hwf as [Hwfv Hwfs].
    simpl in Hfuel.
    apply Forall_cons in IH as [IHv IHs].
    rewrite (IHv Hwfv); [|lia|now apply delimited_after_first].
    change ([ "]"%char ] ++ rest) with ("]"%char :: rest).
    rewrite parse_elements_text; [reflexivity| |lia].
    apply Forall_forall. intros w Hw rest' Hrest'.
    apply (proj1 (Forall_forall _ _) IHs w Hw); [ | |exact Hrest'].
    + rewrite forallb_forall in Hwfs. apply Hwfs. now apply list_elem_of_In.
    + pose proof (rank_elem _ _ Hw). lia.
  - cbn [stringify_chars]. rewrite <- app_comm_cons, <- app_assoc.
    cbn [parse_value]. rewrite skip_ws_stop by reflexivity. cbv zeta.
    change (is_num_char "{") with false.
    change (N_of_ascii "{" =? 34)%N with false.
    change (N_of_ascii "{" =? 91)%N with false.
    change (N_of_ascii "{" =? 123)%N with true. cbv iota.
    destruct members as [|[k v] members]; [reflexivity|].
    cbn [wf_json] in Hwf. apply andb_prop in Hwf as [Hnd Hwf].
    apply bool_decide_eq_true in Hnd.
    cbn [forallb snd] in Hwf. apply andb_prop in Hwf as [Hwfv Hwfs].
    simpl in Hfuel.
    apply Forall_cons in IH as [IHv IHs]. cbn [snd] in IHv.
    cbn [map comma_separated fst snd]. rewrite <- app_assoc.
    unfold member_text at 1, quote at 1.
    rewrite <- !app_comm_cons, skip_ws_stop by reflexivity.
    change (N_of_ascii dquote =? 125)%N with false. cbv iota.
    change (dquote :: (flat_map escape_char (list_ascii_of_string k) ++ [dquote])
              ++ ":"%char :: stringify_chars v)
      with (member_text k (stringify_chars v)).
    rewrite parse_member_text.
    + change ([ "}"%char ] ++ rest) with ("}"%char :: rest).
      rewrite parse_members_text; [|  |lia].
      * now rewrite build_object_distinct.
      * apply Forall_forall. intros kv Hkv rest' Hrest'.
        apply (proj1 (Forall_forall _ _) IHs kv Hkv); [ | |exact Hrest'].
        -- rewrite forallb_forall in Hwfs. apply Hwfs. now apply list_elem_of_In.
        -- pose proof (rank_member _ _ Hkv). lia.
    + intros rest' Hrest'. apply IHv; [exact Hwfv|lia|exact Hrest'].
    + now apply delimited_after_first.
Qed.

Lemma after_first_length (texts : list chars) :
  length (after_first texts) = (length texts + list_sum (map length texts))%nat.
Proof.
  induction texts as [|t texts IH]; [reflexivity|].
  rewrite after_first_cons. simpl. rewrite length_app, IH. lia.
Qed.

Lemma comma_separated_length (texts : list chars) :
  (length texts + list_sum (map length texts)
   <= S (length (comma_separated texts)))%nat.
Proof.
  destruct texts as [|t texts]; simpl; [lia|].
  rewrite length_app, after_first_length. lia.
Qed.

Lemma quote_length (s : string) : (2 <= length (quote s))%nat.
Proof. unfold quote. simpl. rewrite length_app. simpl. lia. Qed.

Lemma list_sum_le {A : Type} (f g : A -> nat) (l : list A) :
  Forall (fun x => f x <= g x)%nat l ->
  (list_sum (map f l) <= list_sum (map g l))%nat.
Proof. induction 1; simpl; lia. Qed.

(** The text of a value is at least as long as the recursion is deep. *)
Lemma rank_le_length (v : json) : (rank v <= length (stringify_chars v))%nat.
Proof.
  induction v as [|b|z|s|items IH|members IH] using json_induction.
  - simpl. lia.
  - destruct b; simpl; lia.
  - destruct (digits_head z) as (c & t & E & _). simpl. rewrite E. simpl. lia.
  - pose proof (quote_length s). simpl. lia.
  - cbn [stringify_chars rank length]. rewrite length_app.
    pose proof (comma_separated_length (map stringify_chars items)) as Hlen.
    rewrite length_map, map_map in Hlen.
    pose proof (list_sum_le _ _ _ IH) as Hsum.
    simpl. lia.
  - cbn [stringify_chars rank length]. rewrite length_app.
    pose proof
      (comma_separated_length
         (map (fun kv => member_text (fst kv) (stringify_chars (snd kv)))
              members)) as Hlen.
    rewrite length_map, map_map in Hlen.
    assert (list_sum (map (fun kv => rank (snd kv)) members)
            <= list_sum
                 (map (fun kv => length (member_text (fst kv)
                                           (stringify_chars (snd kv))))
                      members))%nat as Hsum.
    { apply list_sum_le. eapply Forall_impl; [exact IH|].
      intros kv Hkv. cbv beta in Hkv. unfold member_text.
      rewrite length_app. simpl. lia. }
    simpl. lia.
Qed.

Lemma stringify_nonempty (v : json) : stringify v <> EmptyString.
Proof.
  unfold stringify. destruct (stringify_head v) as (c & t & -> & _).
  discriminate.
Qed.

(** [JSON.parse(JSON.stringify(v))] is [v]. *)
Lemma parse_stringify (v : json) :
  wf_json v = true -> parse (stringify v) = Some v.
Proof.
  intros Hwf. unfold parse, stringify.
  rewrite list_ascii_of_string_of_list_ascii.
  pose proof (parse_value_stringify v Hwf
                (S (length (stringify_chars v))) [] ) as Hp.
  rewrite app_nil_r in Hp. rewrite Hp; [reflexivity| |reflexivity].
  pose proof (rank_le_length v). lia.
Qed.

End JSONFacts.

(** ** Facts about the platform operations *)

(** Case analysis on the condition of the first [if] of the goal. *)
Ltac case_if :=
  match goal with
  | |- context [if ?b then _ else _] => destruct b eqn:?
  end.

Section Platform.

Lemma is_empty_true (s : string) : is_empty s = true <-> s = EmptyString.
Proof. unfold is_empty. apply String.eqb_eq. Qed.

Lemma is_empty_false (s : string) : is_empty s = false <-> s <> EmptyString.
Proof. unfold is_empty. apply String.eqb_neq. Qed.

Lemma truthy_item_Some (o : option string) (s : string) :
  truthy_item o = Some s <-> o = Some s /\ s <> EmptyString.
Proof.
  destruct o as [t|]; simpl; [|split; [discriminate|intros [? _]; discriminate]].
  destruct (is_empty t) eqn:E.
  - apply is_empty_true in E. subst t. split; [discriminate|].
    intros [[= <-] Hne]. now elim Hne.
  - apply is_empty_false in E. split.
    + now intros [= <-].
    + now intros [[= <-] _].
Qed.

Lemma getItem_setItem_eq (k v : string) (st : page) :
  getItem k (setItem k v st) = Some v.
Proof. unfold getItem, setItem. cbn. apply lookup_insert_eq. Qed.

Lemma getItem_setItem_ne (k k' v : string) (st : page) :
  k <> k' -> getItem k' (setItem k v st) = getItem k' st.
Proof. intros Hne. unfold getItem, setItem. cbn. now apply lookup_insert_ne. Qed.

Lemma getItem_removeItem_eq (k : string) (st : page) :
  getItem k (removeItem k st) = None.
Proof. unfold getItem, removeItem. cbn. apply lookup_delete_eq. Qed.

Lemma getItem_removeItem_ne (k k' : string) (st : page) :
  k <> k' -> getItem k' (removeItem k st) = getItem k' st.
Proof. intros Hne. unfold getItem, removeItem. cbn. now apply lookup_delete_ne. Qed.

End Platform.

(** ** The session store: start of the page, login, logout *)

Section SessionStore.

Lemma showMainApp_globals (st : page) :
  authToken (showMainApp st) = authToken st
  /\ currentUser (showMainApp st) = currentUser st
  /\ localStorage (showMainApp st) = localStorage st.
Proof. unfold showMainApp. cbn. now case_if. Qed.

(** What [restore] does, by the content of storage. *)
Lemma restore_absent (st : page) :
  truthy_item (getItem "authToken" st) = None
  \/ truthy_item (getItem "currentUser" st) = None ->
  restore st = (Normal, st).
Proof.
  intros H. unfold restore.
  destruct (truthy_item (getItem "authToken" st)),
           (truthy_item (getItem "currentUser" st));
    destruct H; try discriminate; reflexivity.
Qed.

Lemma restore_throws (st : page) (token text : string) :
  truthy_item (getItem "authToken" st) = Some token ->
  truthy_item (getItem "currentUser" st) = Some text ->
  parse text = None ->
  restore st = (Throw SyntaxError, set_authToken (Some token) st).
Proof. intros Ht Hu Hp. unfold restore. now rewrite Ht, Hu, Hp. Qed.

Lemma restore_session (st : page) (token text : string) (u : json) :
  truthy_item (getItem "authToken" st) = Some token ->
  truthy_item (getItem "currentUser" st) = Some text ->
  parse text = Some u ->
  exists st', restore st = (Normal, st')
              /\ authToken st' = Some token /\ currentUser st' = u
              /\ localStorage st' = localStorage st.
Proof.
  intros Ht Hu Hp. unfold restore. rewrite Ht, Hu, Hp.
  eexists. split; [reflexivity|].
  unfold loadDocuments, loadChatHistory, fetch. cbn.
  destruct (showMainApp_globals
              (set_currentUser u (set_authToken (Some token) st)))
    as (-> & -> & ->).
  now cbn.
Qed.

(** The page load returns a session only if both entries are in storage and
    the identity entry is JSON. *)
Lemma load_session_only_if (st st' : page) (token : string) (u : json) :
  load st = (Normal, st') -> session st' = Some (token, u) ->
  getItem "authToken" st = Some token
  /\ exists text, getItem "currentUser" st = Some text /\ parse text = Some u.
Proof.
  unfold load, DOMContentLoaded. intros Hload Hsession.
  destruct (truthy_item (getItem "authToken" (script_start st))) as [tok|] eqn:Ht;
    [destruct (truthy_item (getItem "currentUser" (script_start st)))
       as [text|] eqn:Hu|].
  - destruct (parse text) as [v|] eqn:Hp.
    + destruct (restore_session _ _ _ _ Ht Hu Hp) as (st1 & Hr & Ha & Hc & _).
      rewrite Hr in Hload. injection Hload as <-.
      unfold session in Hsession. cbn in Hsession.
      rewrite Ha, Hc in Hsession. injection Hsession as <- <-.
      apply truthy_item_Some in Ht as [Ht _], Hu as [Hu _].
      split; [exact Ht|]. now exists text.
    + rewrite (restore_throws _ _ _ Ht Hu Hp) in Hload. discriminate.
  - rewrite restore_absent in Hload by (now right).
    injection Hload as <-. discriminate.
  - rewrite restore_absent in Hload by (now left).
    injection Hload as <-. discriminate.
Qed.

(** With an entry missing or empty, the page load returns and holds no
    session. *)
Lemma load_absent (st : page) :
  truthy_item (getItem "authToken" st) = None
  \/ truthy_item (getItem "currentUser" st) = None ->
  fst (load st) = Normal /\ session (snd (load st)) = None.
Proof.
  intros H. unfold load, DOMContentLoaded.
  rewrite restore_absent by exact H. now cbn.
Qed.

(** With both entries there, the page load throws whenever the identity
    entry is not JSON, and leaves the credential set without an identity. *)
Lemma load_throws (st : page) (token text : string) :
  truthy_item (getItem "authToken" st) = Some token ->
  truthy_item (getItem "currentUser" st) = Some text ->
  parse text = None ->
  load st = (Throw SyntaxError, set_authToken (Some token) (script_start st)).
Proof.
  intros Ht Hu Hp. unfold load, DOMContentLoaded.
  now rewrite (restore_throws (script_start st) token text Ht Hu Hp).
Qed.

(** C1 (the code departs from the claim): with both entries in storage and
    an identity entry that is not JSON, the page load does not return
    absent: [JSON.parse] throws [SyntaxError] out of the handler. *)
Theorem restore_malformed_identity_throws :
  getItem "authToken" malformed_page = Some "tok1"
  /\ getItem "currentUser" malformed_page = Some "{bad"
  /\ parse "{bad" = None
  /\ fst (load malformed_page) = Throw SyntaxError
  /\ enter_key_listener (snd (load malformed_page)) = false.
Proof. repeat split; vm_compute; reflexivity. Qed.

(** Logout leaves credential and identity absent together, in memory and in
    storage. *)
Lemma logout_paired (st : page) :
  session (logout st) = None
  /\ paired_in_memory (logout st) /\ paired_in_storage (logout st).
Proof.
  split; [reflexivity|]. split; [now split|].
  assert (getItem "authToken" (logout st) = None) as Ha.
  { unfold logout. cbn [getItem localStorage set_register_form set_login_form
      set_document_list set_chat_messages set_main_visible].
    change (getItem "authToken"
              (removeItem "currentUser"
                 (removeItem "authToken"
                    (set_currentUser JNull (set_authToken None st)))) = None).
    rewrite getItem_removeItem_ne by discriminate.
    apply getItem_removeItem_eq. }
  assert (getItem "currentUser" (logout st) = None) as Hc.
  { change (getItem "currentUser"
              (removeItem "currentUser"
                 (removeItem "authToken"
                    (set_currentUser JNull (set_authToken None st)))) = None).
    apply getItem_removeItem_eq. }
  unfold paired_in_storage. now rewrite Ha, Hc.
Qed.

(** A granted login with an identity that is not [null] sets credential and
    identity together, in memory and in storage. *)
Lemma login_paired (st : page) (token : string) (identity : json) :
  identity <> JNull ->
  let st' := handleLogin_resume (LoginGranted token identity) st in
  session st' = Some (token, identity)
  /\ paired_in_memory st' /\ paired_in_storage st'
  /\ getItem "authToken" st' = Some token
  /\ getItem "currentUser" st' = Some (stringify identity).
Proof.
  intros Hid st'. subst st'.
  unfold handleLogin_resume, showLoading, loadDocuments, loadChatHistory, fetch.
  unfold session, paired_in_memory, paired_in_storage, getItem. cbn.
  destruct (showMainApp_globals
              (save (set_currentUser identity
                       (set_authToken (Some token) st)))) as (-> & -> & ->).
  unfold save, setItem. cbn.
  rewrite lookup_insert_eq, lookup_insert_ne, lookup_insert_eq by discriminate.
  repeat split; try discriminate; try reflexivity; intros; congruence.
Qed.

(** The page load keeps the pairing when the identity entry is JSON for a
    value other than [null]. *)
Lemma load_paired (st : page) (token text : string) (u : json) :
  truthy_item (getItem "authToken" st) = Some token ->
  truthy_item (getItem "currentUser" st) = Some text ->
  parse text = Some u -> u <> JNull ->
  paired_in_memory (snd (load st))
  /\ localStorage (snd (load st)) = localStorage st.
Proof.
  intros Ht Hu Hp Hne. unfold load, DOMContentLoaded.
  destruct (restore_session (script_start st) token text u Ht Hu Hp)
    as (st1 & -> & Ha & Hc & Hs).
  cbn. unfold paired_in_memory. cbn. rewrite Ha, Hc, Hs.
  split; [split; [discriminate|intros; congruence]|reflexivity].
Qed.

(** C8 (the code departs from the claim): the page load over a storage that
    holds both entries, with an identity entry that is not JSON, starts from
    a paired memory and a paired storage and ends with the credential set
    and the identity [null]. *)
Theorem restore_malformed_identity_unpairs :
  paired_in_memory (script_start malformed_page)
  /\ paired_in_storage malformed_page
  /\ authToken (snd (load malformed_page)) = Some "tok1"
  /\ currentUser (snd (load malformed_page)) = JNull
  /\ ~ paired_in_memory (snd (load malformed_page)).
Proof.
  split; [now split|]. split; [split; discriminate|].
  split; [reflexivity|]. split; [reflexivity|].
  intros [_ H]. discriminate (H eq_refl).
Qed.

(** [save] writes both entries. *)
Lemma save_items (st : page) (token : string) (identity : json) :
  session st = Some (token, identity) ->
  getItem "authToken" (save st) = Some token
  /\ getItem "currentUser" (save st) = Some (stringify identity).
Proof.
  unfold session. destruct (authToken st) as [t|] eqn:Ht; [|discriminate].
  intros [= -> <-]. unfold save. rewrite Ht. split.
  - rewrite getItem_setItem_ne by discriminate. apply getItem_setItem_eq.
  - cbn [currentUser setItem set_localStorage]. apply getItem_setItem_eq.
Qed.

(** C9, as stated, fails for the empty credential: it is written to storage
    and read back as falsy, so the page load restores nothing. *)
Lemma empty_credential_not_restored :
  session empty_credential_page = Some (EmptyString, ada)
  /\ getItem "authToken" (save empty_credential_page) = Some EmptyString
  /\ session (snd (load (save empty_credential_page))) = None
  /\ session (snd (load (save empty_credential_page)))
     <> session empty_credential_page.
Proof.
  split; [reflexivity|]. split; [reflexivity|]. split; [reflexivity|].
  discriminate.
Qed.

(** C9 (amended): for a session whose credential is a non-empty string and
    whose identity is a JSON value (each object with its properties once),
    [save] followed by a page load over the saved storage returns and holds
    a session equal to the one saved. *)
Theorem save_then_restore (st fresh : page) (token : string) (identity : json) :
  session st = Some (token, identity) ->
  token <> EmptyString ->
  wf_json identity = true ->
  localStorage fresh = localStorage (save st) ->
  fst (load fresh) = Normal
  /\ session (snd (load fresh)) = Some (token, identity).
Proof.
  intros Hs Htok Hwf Hstore.
  destruct (save_items st token identity Hs) as [Ha Hc].
  assert (truthy_item (getItem "authToken" (script_start fresh)) = Some token)
    as Ht.
  { apply truthy_item_Some. split; [|exact Htok].
    unfold getItem in *. cbn. now rewrite Hstore. }
  assert (truthy_item (getItem "currentUser" (script_start fresh))
          = Some (stringify identity)) as Hu.
  { apply truthy_item_Some. split; [|apply stringify_nonempty].
    unfold getItem in *. cbn. now rewrite Hstore. }
  unfold load, DOMContentLoaded.
  destruct (restore_session _ _ _ _ Ht Hu (parse_stringify identity Hwf))
    as (st1 & -> & Hst1a & Hst1c & _).
  cbn. unfold session. cbn. now rewrite Hst1a, Hst1c.
Qed.

Lemma save_then_restore_witness :
  fst (load (save signed_in_page)) = Normal
  /\ session (snd (load (save signed_in_page))) = Some ("tok1", ada).
Proof.
  apply (save_then_restore signed_in_page (save signed_in_page) "tok1" ada).
  - reflexivity.
  - discriminate.
  - reflexivity.
  - reflexivity.
Defined.

End SessionStore.

(** ** The chat controller *)

Section Chat.

Lemma trim_start_nil (l : list ascii) :
  trim_start l = [] <-> forallb is_js_space l = true.
Proof.
  induction l as [|c l IH]; simpl; [tauto|].
  destruct (is_js_space c); simpl; [exact IH|].
  split; discriminate.
Qed.

Lemma trim_start_spaces (l : list ascii) :
  forallb is_js_space (trim_start l) = true -> forallb is_js_space l = true.
Proof.
  induction l as [|c l IH]; simpl; [tauto|].
  destruct (is_js_space c) eqn:E; simpl; [exact IH|].
  now rewrite E.
Qed.

(** The trimmed text is empty exactly when the text is made of white space
    (the empty text included). *)
Lemma trim_empty (s : string) :
  trim s = EmptyString
  <-> forallb is_js_space (list_ascii_of_string s) = true.
Proof.
  unfold trim. split.
  - intros H. apply (f_equal list_ascii_of_string) in H.
    rewrite list_ascii_of_string_of_list_ascii in H. simpl in H.
    apply (f_equal (@rev ascii)) in H. rewrite rev_involutive in H.
    simpl in H. apply trim_start_nil in H.
    apply trim_start_spaces. apply List.forallb_forall. intros c Hc.
    apply (proj1 (List.forallb_forall _ _) H). now apply List.in_rev in Hc.
  - intros H. apply trim_start_nil in H. now rewrite H.
Qed.

Lemma sendMessage_ignored (st : page) :
  trim (chat_input st) = EmptyString -> sendMessage st = st.
Proof. intros H. unfold sendMessage. now rewrite H. Qed.

Lemma sendMessage_issued (st : page) :
  trim (chat_input st) <> EmptyString ->
  sendMessage st
  = fetch (PostAsk (bearer st) (trim (chat_input st)) 5)
      (addMessage user (trim (chat_input st)) None
         (set_send_disabled true (set_chat_input EmptyString st))).
Proof.
  intros H. apply is_empty_false in H. unfold sendMessage. now rewrite H.
Qed.


Lemma sendMessage_resume_appends (r : ask_outcome) (st : page) :
  exists m, chat_messages (sendMessage_resume r st) = chat_messages st ++ [m]
            /\ item_role m = assistant.
Proof. destruct r; eexists; split; reflexivity. Qed.

Lemma fold_show_exchange (items : list history_item) (st : page) :
  fold_left show_exchange items st
  = set_chat_messages (chat_messages st ++ rebuilt items) st.
Proof.
  revert st. induction items as [|item items IH]; intros st.
  - destruct st. cbn. now rewrite app_nil_r.
  - cbn [fold_left]. rewrite IH.
    unfold show_exchange, addMessage, set_chat_messages. cbn.
    now rewrite <- !app_assoc.
Qed.







(** C7: a question that is empty after trimming changes nothing: no request
    is issued, no message is appended, the control is as it was. *)
Theorem empty_question_is_ignored (st : page) :
  trim (chat_input st) = EmptyString ->
  sendMessage st = st
  /\ network (sendMessage st) = network st
  /\ chat_messages (sendMessage st) = chat_messages st
  /\ send_disabled (sendMessage st) = send_disabled st.
Proof. intros H. now rewrite (sendMessage_ignored st H). Qed.

Lemma empty_question_is_ignored_witness :
  let st := set_chat_input "   " signed_in_page in
  sendMessage st = st
  /\ network (sendMessage st) = network st
  /\ chat_messages (sendMessage st) = chat_messages st
  /\ send_disabled (sendMessage st) = send_disabled st.
Proof.
  apply (empty_question_is_ignored (set_chat_input "   " signed_in_page)).
  reflexivity.
Defined.

(** C2, as stated, fails: the user logs out while the question is in
    flight, the session of the request is gone, and the answer is shown all
    the same. *)
Lemma stale_response_is_applied :
  let current := logout asking_page in
  session asking_page = Some ("tok1", ada)
  /\ session current = None
  /\ chat_messages current = []
  /\ chat_messages (sendMessage_resume (AskAnswer "A" None) current)
     = [ {| item_role := assistant; item_content := "A"; item_sources := [] |} ]
  /\ sendMessage_resume (AskAnswer "A" None) current <> current.
Proof.
  repeat split; try reflexivity.
  intros H. apply (f_equal chat_messages) in H. discriminate H.
Qed.

(** C2 (amended): the script compares no session when a response arrives.
    After a logout during the request, the response is applied as any
    other: one assistant message goes into the emptied list and the control
    is enabled. *)
Theorem response_after_logout_is_applied (st : page) (r : ask_outcome) :
  let current := logout (sendMessage st) in
  (exists m, chat_messages (sendMessage_resume r current) = [m]
             /\ item_role m = assistant)
  /\ send_disabled (sendMessage_resume r current) = false.
Proof.
  intros current. split; [|reflexivity].
  destruct (sendMessage_resume_appends r current) as (m & Hm & Hrole).
  exists m. split; [exact Hm|exact Hrole].
Qed.

Lemma loadChatHistory_resume_rebuilds (st : page)
    (item : history_item) (items : list history_item) :
  loadChatHistory_resume (HistoryResult (Some (item :: items))) st
  = set_chat_messages (rebuilt (item :: items)) st.
Proof.
  unfold loadChatHistory_resume. rewrite fold_show_exchange. reflexivity.
Qed.

(** C4, as stated, fails for the empty history: the messages on the page
    stay. *)
Lemma empty_history_keeps_messages :
  chat_messages
    (loadChatHistory_resume (HistoryResult (Some [])) answered_page)
  = chat_messages answered_page
  /\ chat_messages
       (loadChatHistory_resume (HistoryResult (Some [])) answered_page)
     <> rebuilt [].
Proof. split; [reflexivity|discriminate]. Qed.

(** C4 (amended): for a history that is not empty, the page after
    [loadChatHistory] is the page before it with the message list replaced
    by the reconstruction; for the empty history the page is left as it
    was. *)
Theorem history_is_rebuilt (st : page) (history : list history_item) :
  loadChatHistory_resume (HistoryResult (Some history)) st
  = match history with
    | [] => st
    | _ :: _ => set_chat_messages (rebuilt history) st
    end.
Proof.
  destruct history as [|item items]; [reflexivity|].
  apply loadChatHistory_resume_rebuilds.
Qed.

(** The example of the specification. *)
Example history_of_two_exchanges (st : page) :
  chat_messages
    (loadChatHistory_resume (HistoryResult (Some two_exchanges)) st)
  = [ {| item_role := user; item_content := "Q1"; item_sources := [] |};
      {| item_role := assistant; item_content := "A1"; item_sources := [] |};
      {| item_role := user; item_content := "Q2"; item_sources := [] |};
      {| item_role := assistant; item_content := "A2"; item_sources := [s1] |} ].
Proof. unfold two_exchanges. now rewrite loadChatHistory_resume_rebuilds. Qed.

(** A successful clear empties the list and confirms. *)
Lemma clear_success (st : page) :
  chat_messages (clearChatHistory_resume (ClearResponse true) st)
  = [ {| item_role := system;
         item_content := "Chat history cleared successfully!";
         item_sources := [] |} ].
Proof. reflexivity. Qed.

(** A request that could not be made leaves the messages and reports. *)
Lemma clear_transport_failure (st : page) :
  chat_messages (clearChatHistory_resume ClearError st)
  = chat_messages st
    ++ [ {| item_role := system;
            item_content := "Error clearing chat history. Please try again.";
            item_sources := [] |} ].
Proof. reflexivity. Qed.

Lemma clear_rejection (st : page) :
  clearChatHistory_resume (ClearResponse false) st = st.
Proof. reflexivity. Qed.

(** C5 (the code departs from the claim): when the server answers the clear
    request with a status that is not a success, no system message is
    appended; the page stays as it was. *)
Theorem clear_rejection_is_silent :
  chat_messages answered_page
  = [ {| item_role := user; item_content := "hi"; item_sources := [] |};
      {| item_role := assistant; item_content := "A"; item_sources := [] |} ]
  /\ clearChatHistory_resume (ClearResponse false)
       (clearChatHistory true answered_page)
     = clearChatHistory true answered_page
  /\ chat_messages
       (clearChatHistory_resume (ClearResponse false)
          (clearChatHistory true answered_page))
     = chat_messages answered_page.
Proof. repeat split; reflexivity. Qed.

End Chat.

(** ** Upload *)

Section Upload.

(** The [forEach] keeps the PDF files, in the order of the selection. *)
Lemma append_pdf_filter (files formData : list file) :
  fold_left append_pdf files formData = formData ++ List.filter is_pdf files.
Proof.
  revert formData. induction files as [|f files IH]; intros formData.
  - now rewrite app_nil_r.
  - cbn [fold_left List.filter]. rewrite IH. unfold append_pdf.
    destruct (is_pdf f); [now rewrite <- app_assoc|reflexivity].
Qed.

Lemma handleFileUpload_cases (st : page) :
  handleFileUpload st
  = match file_input st with
    | [] => st
    | _ :: _ =>
        match List.filter is_pdf (file_input st) with
        | [] => showMessage "Please select PDF files only" "error" st
        | pdfs =>
            fetch (PostUpload (bearer st) pdfs) (showLoading true st)
        end
    end.
Proof.
  unfold handleFileUpload. rewrite append_pdf_filter.
  destruct (file_input st) as [|f files]; [reflexivity|].
  cbn [length Nat.eqb app].
  now destruct (List.filter is_pdf (f :: files)).
Qed.

(** C6: the body of the upload request is the list of the selected files
    whose type is PDF, in the order of the selection; when a selection that
    is not empty has no such file, the validation message is shown and no
    request is made. *)
Theorem upload_sends_the_pdfs (st : page) :
  let pdfs := List.filter is_pdf (file_input st) in
  (pdfs <> [] ->
     network (handleFileUpload st)
     = network st ++ [PostUpload (bearer st) pdfs])
  /\ (file_input st <> [] -> pdfs = [] ->
        network (handleFileUpload st) = network st
        /\ auth_message (handleFileUpload st)
           = {| textContent := "Please select PDF files only";
                className := "message error";
                displayed := true |}).
Proof.
  intros pdfs. subst pdfs. rewrite handleFileUpload_cases.
  destruct (file_input st) as [|f files] eqn:E.
  - split; [intros H; now elim H|intros H; now elim H].
  - destruct (List.filter is_pdf (f :: files)) as [|p ps].
    + split; [intros H; now elim H|]. intros _ _. now split.
    + split; [reflexivity|discriminate].
Qed.

(** The examples of the specification. *)
Example upload_of_a_mixed_selection :
  network (handleFileUpload (set_file_input [a_pdf; b_txt; c_pdf] signed_in_page))
  = network signed_in_page ++ [PostUpload "Bearer tok1" [a_pdf; c_pdf]].
Proof. reflexivity. Qed.

Example upload_of_a_text_file :
  let st := set_file_input [b_txt] signed_in_page in
  network (handleFileUpload st) = network st
  /\ textContent (auth_message (handleFileUpload st))
     = "Please select PDF files only"
  /\ displayed (auth_message (handleFileUpload st)) = true.
Proof. repeat split; reflexivity. Qed.

End Upload.

(** ** Registration *)

Section Registration.

(** C10: when one of the four fields is empty, or the password has fewer
    than six characters, [handleRegister] shows an error message and makes
    no request. *)
Theorem register_is_validated_first (st : page) :
  let form := register_form st in
  register_username form = EmptyString
  \/ register_email form = EmptyString
  \/ register_fullname form = EmptyString
  \/ register_password form = EmptyString
  \/ (String.length (register_password form) < 6)%nat ->
  network (handleRegister st) = network st
  /\ displayed (auth_message (handleRegister st)) = true
  /\ className (auth_message (handleRegister st)) = "message error"
  /\ (textContent (auth_message (handleRegister st))
      = "Please fill in all fields"
      \/ textContent (auth_message (handleRegister st))
         = "Password must be at least 6 characters").
Proof.
  intros form H. subst form. unfold handleRegister.
  destruct (is_empty (register_username (register_form st))
            || is_empty (register_email (register_form st))
            || is_empty (register_fullname (register_form st))
            || is_empty (register_password (register_form st))) eqn:E.
  - repeat split; try reflexivity. now left.
  - apply orb_false_elim in E as [E Ep].
    apply orb_false_elim in E as [E Ef].
    apply orb_false_elim in E as [Eu Ee].
    apply is_empty_false in Eu, Ee, Ef, Ep.
    destruct H as [H|[H|[H|[H|H]]]]; try contradiction.
    apply Nat.ltb_lt in H. rewrite H.
    repeat split; try reflexivity. now right.
Qed.

Lemma register_is_validated_first_witness :
  let st :=
    set_register_form
      {| register_username := "ada"; register_email := "ada@example.org";
         register_fullname := "Ada"; register_password := "12345" |}
      blank_page in
  network (handleRegister st) = network st
  /\ displayed (auth_message (handleRegister st)) = true
  /\ className (auth_message (handleRegister st)) = "message error"
  /\ (textContent (auth_message (handleRegister st))
      = "Please fill in all fields"
      \/ textContent (auth_message (handleRegister st))
         = "Password must be at least 6 characters").
Proof.
  apply (register_is_validated_first
           (set_register_form
              {| register_username := "ada"; register_email := "ada@example.org";
                 register_fullname := "Ada"; register_password := "12345" |}
              blank_page)).
  right. right. right. right. cbn. lia.
Defined.

(** With the four fields filled and a password of six characters or more,
    the request is made. *)
Lemma register_request (st : page) :
  let form := register_form st in
  register_username form <> EmptyString ->
  register_email form <> EmptyString ->
  register_fullname form <> EmptyString ->
  (6 <= String.length (register_password form))%nat ->
  network (handleRegister st)
  = network st
    ++ [PostRegister (register_username form) (register_email form)
          (register_fullname form) (register_password form)].
Proof.
  intros form Hu He Hf Hp. subst form. unfold handleRegister.
  apply is_empty_false in Hu, He, Hf. rewrite Hu, He, Hf.
  assert (is_empty (register_password (register_form st)) = false) as ->.
  { apply is_empty_false. intros E. rewrite E in Hp. simpl in Hp. lia. }
  apply Nat.ltb_ge in Hp. now rewrite Hp.
Qed.

End Registration.

(** ** Login *)

Section LoginFlow.

(** X1: a login with the username or the password left empty shows the
    validation message and does nothing else: no request, no loading
    indicator, no change to the session or to storage. *)
Theorem login_needs_both_fields (st : page) :
  login_username (login_form st) = EmptyString
  \/ login_password (login_form st) = EmptyString ->
  handleLogin st
  = showMessage "Please enter both username and password" "error" st
  /\ network (handleLogin st) = network st
  /\ loading (handleLogin st) = loading st
  /\ same_session st (handleLogin st).
Proof.
  intros H. unfold handleLogin.
  assert (is_empty (login_username (login_form st))
          || is_empty (login_password (login_form st)) = true) as ->.
  { apply orb_true_iff. destruct H as [H|H]; [left|right];
      now apply is_empty_true. }
  repeat split.
Qed.

Lemma login_needs_both_fields_witness :
  let st := set_login_form
              {| login_username := "ada"; login_password := EmptyString |}
              blank_page in
  handleLogin st
  = showMessage "Please enter both username and password" "error" st
  /\ network (handleLogin st) = network st
  /\ loading (handleLogin st) = loading st
  /\ same_session st (handleLogin st).
Proof.
  apply (login_needs_both_fields
           (set_login_form
              {| login_username := "ada"; login_password := EmptyString |}
              blank_page)).
  right. reflexivity.
Defined.



Lemma login_granted_page (st : page) (token : string) (identity : json) :
  let st1 := save (set_currentUser identity
                     (set_authToken (Some token) st)) in
  handleLogin_resume (LoginGranted token identity) st
  = showLoading false (loadDocuments (loadChatHistory (showMainApp st1))).
Proof. reflexivity. Qed.

Lemma showMainApp_frame (st : page) :
  network (showMainApp st) = network st
  /\ chat_messages (showMainApp st) = chat_messages st
  /\ main_visible (showMainApp st) = true
  /\ user_name (showMainApp st)
     = (if truthy (currentUser st)
        then get_property "full_name" (currentUser st)
        else user_name st).
Proof. unfold showMainApp. cbn. now case_if. Qed.

(** X3: a granted login, on any page, sets the session to the token and the
    identity of the response, writes both to storage, shows the main view,
    hides the loading indicator, and asks for the history and then for the
    documents with the new token; the name shown is the [full_name] of the
    identity when the identity is truthy. *)
Theorem login_granted (st : page) (token : string) (identity : json) :
  let st' := handleLogin_resume (LoginGranted token identity) st in
  session st' = Some (token, identity)
  /\ getItem "authToken" st' = Some token
  /\ getItem "currentUser" st' = Some (stringify identity)
  /\ main_visible st' = true
  /\ loading st' = false
  /\ network st'
     = network st
       ++ [GetHistory ("Bearer " ++ token) 20;
           GetDocuments ("Bearer " ++ token)]
  /\ user_name st'
     = (if truthy identity then get_property "full_name" identity
        else user_name st)
  /\ chat_messages st' = chat_messages st.
Proof.
  intros st'. subst st'. rewrite login_granted_page. cbv zeta.
  set (st1 := save (set_currentUser identity
                      (set_authToken (Some token) st))).
  destruct (showMainApp_globals st1) as (Ha & Hc & Hs).
  destruct (showMainApp_frame st1) as (Hn & Hm & Hv & Hu).
  unfold session, getItem, showLoading, loadDocuments, loadChatHistory,
    fetch, bearer. cbn.
  rewrite Ha, Hc, Hs, Hn, Hm, Hv, Hu.
  subst st1. unfold save, setItem. cbn.
  rewrite lookup_insert_eq, lookup_insert_ne, lookup_insert_eq by discriminate.
  rewrite <- app_assoc. repeat split.
Qed.

(** X4: a login that is not granted (a rejection or an exception) leaves
    the session, storage, the network log and the view as they were, hides
    the loading indicator and shows an error message: the detail of the
    rejection when it has one that is not empty, a fixed text otherwise. *)
Theorem login_refused (st : page) (r : login_outcome) :
  (forall token identity, r <> LoginGranted token identity) ->
  let st' := handleLogin_resume r st in
  same_session st st'
  /\ network st' = network st
  /\ main_visible st' = main_visible st
  /\ loading st' = false
  /\ className (auth_message st') = "message error"
  /\ displayed (auth_message st') = true
  /\ textContent (auth_message st')
     = match r with
       | LoginRejected (Some d) => if is_empty d then "Login failed" else d
       | LoginRejected None => "Login failed"
       | _ => "Network error. Please try again."
       end.
Proof.
  intros Hr st'. subst st'. destruct r as [token identity|[d|]|].
  - now elim (Hr token identity).
  - unfold handleLogin_resume, detail_or, truthy_item.
    destruct (is_empty d); repeat split.
  - repeat split.
  - repeat split.
Qed.

Lemma login_refused_witness :
  let st' := handleLogin_resume (LoginRejected (Some "Incorrect password"))
               (handleLogin typed_login_page) in
  same_session (handleLogin typed_login_page) st'
  /\ network st' = network (handleLogin typed_login_page)
  /\ main_visible st' = main_visible (handleLogin typed_login_page)
  /\ loading st' = false
  /\ className (auth_message st') = "message error"
  /\ displayed (auth_message st') = true
  /\ textContent (auth_message st') = "Incorrect password".
Proof.
  apply (login_refused (handleLogin typed_login_page)
           (LoginRejected (Some "Incorrect password"))).
  discriminate.
Defined.

End LoginFlow.

(** ** Registration and logout *)

Section RegisterFlow.

(** X5: an accepted registration grants no session and makes no request;
    it switches to the login tab and empties the register form.  Its success
    message is written but not left on display: [switchTab] ends with
    [hideMessage], which runs right after [showMessage]. *)
Theorem register_accepted (st : page) :
  let st' := handleRegister_resume RegisterAccepted st in
  same_session st st'
  /\ network st' = network st
  /\ active_tab st' = "login"
  /\ register_form st' = blank_register_form
  /\ login_form st' = login_form st
  /\ loading st' = false
  /\ textContent (auth_message st') = "Registration successful! Please sign in."
  /\ className (auth_message st') = "message success"
  /\ displayed (auth_message st') = false.
Proof. repeat split. Qed.

(** X6: a registration that is not accepted keeps the form as typed and the
    tab as it was, hides the loading indicator and leaves an error message
    on display: the detail of the rejection when it has one that is not
    empty, a fixed text otherwise. *)
Theorem register_refused (st : page) (r : register_outcome) :
  r <> RegisterAccepted ->
  let st' := handleRegister_resume r st in
  register_form st' = register_form st
  /\ active_tab st' = active_tab st
  /\ same_session st st'
  /\ network st' = network st
  /\ loading st' = false
  /\ className (auth_message st') = "message error"
  /\ displayed (auth_message st') = true
  /\ textContent (auth_message st')
     = match r with
       | RegisterRejected (Some d) =>
           if is_empty d then "Registration failed" else d
       | RegisterRejected None => "Registration failed"
       | _ => "Network error. Please try again."
       end.
Proof.
  intros Hr st'. subst st'. destruct r as [|[d|]|].
  - now elim Hr.
  - unfold handleRegister_resume, detail_or, truthy_item.
    destruct (is_empty d); repeat split.
  - repeat split.
  - repeat split.
Qed.

Lemma register_refused_witness :
  let st' := handleRegister_resume (RegisterRejected (Some EmptyString))
               blank_page in
  register_form st' = register_form blank_page
  /\ active_tab st' = active_tab blank_page
  /\ same_session blank_page st'
  /\ network st' = network blank_page
  /\ loading st' = false
  /\ className (auth_message st') = "message error"
  /\ displayed (auth_message st') = true
  /\ textContent (auth_message st') = "Registration failed".
Proof.
  apply (register_refused blank_page (RegisterRejected (Some EmptyString))).
  discriminate.
Defined.

(** X24: with the four fields filled and a password of six characters or
    more, registration shows the loading indicator and issues one request
    carrying the four fields as typed; nothing else about the fields is
    checked, and the session and storage are not touched. *)
Theorem register_is_requested (st : page) :
  let form := register_form st in
  register_username form <> EmptyString ->
  register_email form <> EmptyString ->
  register_fullname form <> EmptyString ->
  (6 <= String.length (register_password form))%nat ->
  network (handleRegister st)
  = network st
    ++ [PostRegister (register_username form) (register_email form)
          (register_fullname form) (register_password form)]
  /\ loading (handleRegister st) = true
  /\ auth_message (handleRegister st) = auth_message st
  /\ same_session st (handleRegister st).
Proof.
  intros form Hu He Hf Hp. subst form. unfold handleRegister.
  apply is_empty_false in Hu, He, Hf. rewrite Hu, He, Hf.
  assert (is_empty (register_password (register_form st)) = false) as ->.
  { apply is_empty_false. intros E. rewrite E in Hp. simpl in Hp. lia. }
  apply Nat.ltb_ge in Hp. rewrite Hp. repeat split.
Qed.

Lemma register_is_requested_witness :
  let st :=
    set_register_form
      {| register_username := "ada"; register_email := "not an address";
         register_fullname := "Ada"; register_password := "123456" |}
      blank_page in
  network (handleRegister st)
  = [PostRegister "ada" "not an address" "Ada" "123456"]
  /\ loading (handleRegister st) = true
  /\ auth_message (handleRegister st) = auth_message st
  /\ same_session st (handleRegister st).
Proof.
  apply (register_is_requested
           (set_register_form
              {| register_username := "ada"; register_email := "not an address";
                 register_fullname := "Ada"; register_password := "123456" |}
              blank_page)); try discriminate.
  cbn. lia.
Defined.

End RegisterFlow.

Section LogoutFlow.

(** Two pages with the same components are the same page. *)
Lemma page_ext (st st' : page) :
  authToken st = authToken st' ->
  currentUser st = currentUser st' ->
  localStorage st = localStorage st' ->
  network st = network st' ->
  chat_messages st = chat_messages st' ->
  document_list st = document_list st' ->
  send_disabled st = send_disabled st' ->
  chat_input st = chat_input st' ->
  enter_key_listener st = enter_key_listener st' ->
  login_form st = login_form st' ->
  register_form st = register_form st' ->
  active_tab st = active_tab st' ->
  auth_message st = auth_message st' ->
  loading st = loading st' ->
  main_visible st = main_visible st' ->
  user_name st = user_name st' ->
  file_input st = file_input st' ->
  st = st'.
Proof. destruct st, st'. cbn. intros. now subst. Qed.

Lemma logout_storage (st : page) (k : string) :
  getItem k (logout st)
  = if decide (k = "authToken") then None
    else if decide (k = "currentUser") then None
    else getItem k st.
Proof.
  change (getItem k (logout st))
    with (getItem k (removeItem "currentUser"
                       (removeItem "authToken"
                          (set_currentUser JNull (set_authToken None st))))).
  destruct (decide (k = "authToken")) as [->|Ha].
  - rewrite getItem_removeItem_ne by discriminate.
    apply getItem_removeItem_eq.
  - destruct (decide (k = "currentUser")) as [->|Hc].
    + apply getItem_removeItem_eq.
    + rewrite !getItem_removeItem_ne by congruence. reflexivity.
Qed.

(** X7: logout drops the session from memory and both entries from storage
    and touches no other entry; it empties the message list and the document
    list, blanks both forms and shows the login view; it makes no request
    and leaves the submission control as it was. *)
Theorem logout_clears (st : page) :
  session (logout st) = None
  /\ currentUser (logout st) = JNull
  /\ (forall k, getItem k (logout st)
                = if decide (k = "authToken") then None
                  else if decide (k = "currentUser") then None
                  else getItem k st)
  /\ chat_messages (logout st) = []
  /\ document_list (logout st) = ListBlank
  /\ login_form (logout st) = blank_login_form
  /\ register_form (logout st) = blank_register_form
  /\ main_visible (logout st) = false
  /\ network (logout st) = network st
  /\ send_disabled (logout st) = send_disabled st.
Proof.
  split; [reflexivity|]. split; [reflexivity|].
  split; [intros k; apply logout_storage|]. repeat split.
Qed.

(** X8: logging out twice is logging out once. *)
Theorem logout_twice (st : page) : logout (logout st) = logout st.
Proof.
  apply page_ext.
  3:{ change (delete "currentUser"
                (delete "authToken"
                   (delete "currentUser"
                      (delete "authToken" (localStorage st))))
              = delete "currentUser" (delete "authToken" (localStorage st))).
      rewrite (delete_id (delete "currentUser" _) "authToken").
      - apply delete_id. apply lookup_delete_eq.
      - rewrite lookup_delete_ne by discriminate. apply lookup_delete_eq. }
  all: lazy; reflexivity.
Qed.

(** X9: the script does not hold back a call that needs a credential when
    there is none: after a logout, a confirmed clear is still requested, with
    the header [Bearer null]. *)
Theorem clear_after_logout (st : page) :
  network (clearChatHistory true (logout st))
  = network st ++ [DeleteHistory "Bearer null"].
Proof. reflexivity. Qed.

End LogoutFlow.

(** ** Loading the page *)

Section PageLoad.

Lemma restore_keeps_storage (st : page) :
  localStorage (snd (restore st)) = localStorage st.
Proof.
  destruct (truthy_item (getItem "authToken" st)) as [token|] eqn:Ht.
  - destruct (truthy_item (getItem "currentUser" st)) as [text|] eqn:Hu.
    + destruct (parse text) as [u|] eqn:Hp.
      * destruct (restore_session st token text u Ht Hu Hp)
          as (st' & -> & _ & _ & Hs). exact Hs.
      * now rewrite (restore_throws st token text Ht Hu Hp).
    + rewrite restore_absent by (now right). reflexivity.
  - rewrite restore_absent by (now left). reflexivity.
Qed.

(** X10: loading the page never writes to storage, whatever storage holds
    and however the handler ends. *)
Theorem load_keeps_storage (st : page) :
  localStorage (snd (load st)) = localStorage st.
Proof.
  unfold load, DOMContentLoaded.
  pose proof (restore_keeps_storage (script_start st)) as H.
  destruct (restore (script_start st)) as [[|e] st']; exact H.
Qed.

(** X11: with both entries in storage, neither empty, and an identity entry
    that is JSON, the page load returns with the stored credential and the
    parsed identity as session, shows the main view, asks for the history and
    then for the documents with the stored credential, and registers the
    Enter key. *)
Theorem load_restores (st : page) (token text : string) (u : json) :
  truthy_item (getItem "authToken" st) = Some token ->
  truthy_item (getItem "currentUser" st) = Some text ->
  parse text = Some u ->
  fst (load st) = Normal
  /\ session (snd (load st)) = Some (token, u)
  /\ main_visible (snd (load st)) = true
  /\ network (snd (load st))
     = network st
       ++ [GetHistory ("Bearer " ++ token) 20;
           GetDocuments ("Bearer " ++ token)]
  /\ enter_key_listener (snd (load st)) = true
  /\ chat_messages (snd (load st)) = chat_messages st.
Proof.
  intros Ht Hu Hp. unfold load, DOMContentLoaded, restore.
  change (getItem "authToken" (script_start st)) with (getItem "authToken" st).
  change (getItem "currentUser" (script_start st))
    with (getItem "currentUser" st).
  rewrite Ht, Hu, Hp.
  set (st1 := set_currentUser u (set_authToken (Some token) (script_start st))).
  destruct (showMainApp_globals st1) as (Ha & Hc & _).
  destruct (showMainApp_frame st1) as (Hn & Hm & Hv & _).
  unfold session, loadDocuments, loadChatHistory, fetch, bearer. cbn.
  rewrite Ha, Hc, Hn, Hm, Hv. subst st1. cbn.
  rewrite <- app_assoc. repeat split.
Qed.

Lemma load_restores_witness :
  fst (load (save signed_in_page)) = Normal
  /\ session (snd (load (save signed_in_page))) = Some ("tok1", ada)
  /\ main_visible (snd (load (save signed_in_page))) = true
  /\ network (snd (load (save signed_in_page)))
     = network (save signed_in_page)
       ++ [GetHistory "Bearer tok1" 20; GetDocuments "Bearer tok1"]
  /\ enter_key_listener (snd (load (save signed_in_page))) = true
  /\ chat_messages (snd (load (save signed_in_page)))
     = chat_messages (save signed_in_page).
Proof.
  apply (load_restores (save signed_in_page) "tok1" (stringify ada) ada);
    reflexivity.
Defined.

(** X12: with an entry missing or empty, the page load restores nothing
    and asks nothing; it leaves the view as it was and the other entry, if
    there is one, in storage; the Enter key is registered. *)
Theorem load_without_session (st : page) :
  truthy_item (getItem "authToken" st) = None
  \/ truthy_item (getItem "currentUser" st) = None ->
  load st = (Normal, set_enter_key_listener true (script_start st))
  /\ session (snd (load st)) = None
  /\ network (snd (load st)) = network st
  /\ main_visible (snd (load st)) = main_visible st
  /\ localStorage (snd (load st)) = localStorage st.
Proof.
  intros H. unfold load, DOMContentLoaded.
  rewrite (restore_absent (script_start st) H). repeat split.
Qed.

Lemma load_without_session_witness :
  let st := setItem "authToken" "tok1" blank_page in
  load st = (Normal, set_enter_key_listener true (script_start st))
  /\ session (snd (load st)) = None
  /\ network (snd (load st)) = network st
  /\ main_visible (snd (load st)) = main_visible st
  /\ localStorage (snd (load st)) = localStorage st.
Proof.
  apply (load_without_session (setItem "authToken" "tok1" blank_page)).
  right. reflexivity.
Defined.

Lemma load_with_modelled_parser (st : page) : load_with parse st = load st.
Proof. reflexivity. Qed.

(** X13: whatever the browser's [JSON.parse] is, when it throws on the
    identity entry (both entries being there and not empty) the page load
    ends with the exception, the credential assigned and nothing else done:
    the view is not switched, no request is made, and the handler never
    reaches the registration of the Enter key, so on a page that had no
    listener pressing Enter after that does nothing, whatever is typed. *)
Theorem failed_load_leaves_enter_dead
    (parse_json : string -> option json) (st : page) (token text : string) :
  truthy_item (getItem "authToken" st) = Some token ->
  truthy_item (getItem "currentUser" st) = Some text ->
  parse_json text = None ->
  enter_key_listener st = false ->
  load_with parse_json st
  = (Throw SyntaxError, set_authToken (Some token) (script_start st))
  /\ (forall question,
        enter_key (set_chat_input question (snd (load_with parse_json st)))
        = set_chat_input question (snd (load_with parse_json st)))
  /\ main_visible (snd (load_with parse_json st)) = main_visible st
  /\ network (snd (load_with parse_json st)) = network st.
Proof.
  intros Ht Hu Hp Hl.
  assert (load_with parse_json st
          = (Throw SyntaxError, set_authToken (Some token) (script_start st)))
    as Hload.
  { unfold load_with, DOMContentLoaded_with, restore_with.
    change (getItem "authToken" (script_start st))
      with (getItem "authToken" st).
    change (getItem "currentUser" (script_start st))
      with (getItem "currentUser" st).
    now rewrite Ht, Hu, Hp. }
  rewrite Hload. split; [reflexivity|]. split; [|now split].
  intros question. unfold enter_key. cbn. now rewrite Hl.
Qed.

Lemma failed_load_leaves_enter_dead_witness :
  load_with parse malformed_page
  = (Throw SyntaxError,
     set_authToken (Some "tok1") (script_start malformed_page))
  /\ (forall question,
        enter_key (set_chat_input question (snd (load_with parse malformed_page)))
        = set_chat_input question (snd (load_with parse malformed_page)))
  /\ main_visible (snd (load_with parse malformed_page))
     = main_visible malformed_page
  /\ network (snd (load_with parse malformed_page)) = network malformed_page.
Proof.
  apply (failed_load_leaves_enter_dead parse malformed_page "tok1" "{bad");
    reflexivity.
Defined.

(** X14: after a logout, loading the page over the storage that is left
    restores no session and asks nothing. *)
Theorem reload_after_logout (st fresh : page) :
  localStorage fresh = localStorage (logout st) ->
  fst (load fresh) = Normal
  /\ session (snd (load fresh)) = None
  /\ network (snd (load fresh)) = network fresh.
Proof.
  intros Hs.
  assert (truthy_item (getItem "authToken" (script_start fresh)) = None) as Ht.
  { change (getItem "authToken" (script_start fresh))
      with (localStorage fresh !! "authToken").
    rewrite Hs.
    change (localStorage (logout st) !! "authToken")
      with (getItem "authToken" (logout st)).
    now rewrite logout_storage. }
  unfold load, DOMContentLoaded.
  rewrite (restore_absent (script_start fresh)) by (now left).
  repeat split.
Qed.

Lemma reload_after_logout_witness :
  fst (load (logout signed_in_page)) = Normal
  /\ session (snd (load (logout signed_in_page))) = None
  /\ network (snd (load (logout signed_in_page)))
     = network (logout signed_in_page).
Proof.
  apply (reload_after_logout signed_in_page (logout signed_in_page)).
  reflexivity.
Defined.

End PageLoad.

(** ** Questions, uploads, documents, clearing *)

Section Exchanges.

(** X15: a question with non-empty trimmed text empties the input and puts
    the trimmed text, not the text as typed, on the list as a user message;
    when the response settles, one assistant message follows it, and every
    message that was on the list before is kept in place: the answer with
    its sources, the detail of a rejection behind [Error: ], or the fixed
    text of a connection error. *)
Theorem exchange_is_appended (st : page) (r : ask_outcome) :
  trim (chat_input st) <> EmptyString ->
  let asked :=
    {| item_role := user; item_content := trim (chat_input st);
       item_sources := [] |} in
  chat_input (sendMessage st) = EmptyString
  /\ chat_messages (sendMessage st) = chat_messages st ++ [asked]
  /\ chat_messages (sendMessage_resume r (sendMessage st))
     = chat_messages st
       ++ [asked;
           {| item_role := assistant;
              item_content :=
                match r with
                | AskAnswer answer _ => answer
                | AskRejected detail => "Error: " ++ detail
                | AskError =>
                    "Sorry, there was a connection error. Please try again."
                end;
              item_sources :=
                match r with
                | AskAnswer _ (Some l) => l
                | _ => []
                end |}].
Proof.
  intros H asked. rewrite (sendMessage_issued st H).
  split; [reflexivity|]. split; [reflexivity|].
  destruct r as [answer [l|]|detail|]; cbn; now rewrite <- app_assoc.
Qed.

Lemma exchange_is_appended_witness :
  let st := set_chat_input "  hi  " signed_in_page in
  let asked :=
    {| item_role := user; item_content := "hi"; item_sources := [] |} in
  chat_input (sendMessage st) = EmptyString
  /\ chat_messages (sendMessage st) = chat_messages st ++ [asked]
  /\ chat_messages
       (sendMessage_resume (AskRejected "index unavailable") (sendMessage st))
     = chat_messages st
       ++ [asked;
           {| item_role := assistant;
              item_content := "Error: index unavailable";
              item_sources := [] |}].
Proof.
  apply (exchange_is_appended (set_chat_input "  hi  " signed_in_page)
           (AskRejected "index unavailable")).
  discriminate.
Defined.

(** X16: the Enter key does not look at the submission control.  Whether
    the control is disabled or not, pressing Enter on a text that is not
    empty after trimming issues a request; so with a question in flight a
    second one can be sent, and the first response to settle then enables
    the control while the other request is still in flight. *)
Theorem enter_ignores_the_control (st : page) :
  enter_key_listener st = true ->
  trim (chat_input st) <> EmptyString ->
  network (enter_key st)
  = network st ++ [PostAsk (bearer st) (trim (chat_input st)) 5]
  /\ send_disabled (enter_key st) = true
  /\ forall r, send_disabled (sendMessage_resume r (enter_key st)) = false.
Proof.
  intros Hl H. unfold enter_key. rewrite Hl, (sendMessage_issued st H).
  repeat split.
Qed.

Lemma enter_ignores_the_control_witness :
  send_disabled impatient_page = true
  /\ network (enter_key impatient_page)
     = network impatient_page ++ [PostAsk "Bearer tok1" "again" 5]
  /\ send_disabled (enter_key impatient_page) = true
  /\ forall r,
       send_disabled (sendMessage_resume r (enter_key impatient_page)) = false.
Proof.
  split; [reflexivity|].
  apply (enter_ignores_the_control impatient_page).
  - reflexivity.
  - discriminate.
Defined.

(** X17: however an upload settles, the loading indicator is hidden, the
    file input is emptied, and one system message is appended to the list;
    the documents are asked for again when the upload was processed, and
    only then. *)
Theorem upload_settles (st : page) (r : upload_outcome) :
  let st' := handleFileUpload_resume r st in
  loading st' = false
  /\ file_input st' = []
  /\ chat_messages st'
     = chat_messages st
       ++ [ {| item_role := system;
               item_content :=
                 match r with
                 | UploadProcessed documents =>
                     "✅ Successfully processed "
                     ++ number_text (length documents) ++ " documents!"
                 | UploadRejected detail => "❌ Error: " ++ detail
                 | UploadError =>
                     "❌ Error uploading documents. Please try again."
                 end;
               item_sources := [] |} ]
  /\ network st'
     = network st
       ++ match r with
          | UploadProcessed _ => [GetDocuments (bearer st)]
          | _ => []
          end
  /\ same_session st st'.
Proof.
  destruct r as [documents|detail|]; cbn; rewrite ?app_nil_r; repeat split.
Qed.

(** X18: the document list is a snapshot of the last answer.  An answer to
    [loadDocuments] sets the list and changes nothing else on the page: the
    page after it is the page before it with the list replaced by the
    documents of the answer, or by the placeholder when the answer has no
    documents or no list at all.  So an answer overwrites what an earlier one
    wrote; and a failed call leaves the page as it was. *)
Theorem documents_are_a_snapshot
    (st : page) (earlier : documents_outcome)
    (documents : option (list document_record)) :
  loadDocuments_resume (DocumentsResult documents) st
  = set_document_list
      match documents with
      | Some (d :: ds) => ListItems (d :: ds)
      | _ => ListPlaceholder
      end st
  /\ loadDocuments_resume (DocumentsResult documents)
       (loadDocuments_resume earlier st)
     = loadDocuments_resume (DocumentsResult documents) st
  /\ loadDocuments_resume DocumentsError st = st.
Proof.
  split; [|split; [|reflexivity]].
  - destruct documents as [[|d ds]|]; reflexivity.
  - destruct earlier as [[[|e es]|]|], documents as [[|d ds]|]; reflexivity.
Qed.

(** X19: a clear that the user declines does nothing; a confirmed clear
    issues one request and changes nothing else; a clear the server accepts
    leaves the confirmation as the only message, whatever was on the list,
    and changes nothing else on the page, so a second accepted clear gives
    the same page as the first. *)
Theorem clear_twice (st : page) :
  clearChatHistory false st = st
  /\ clearChatHistory true st
     = set_network (network st ++ [DeleteHistory (bearer st)]) st
  /\ clearChatHistory_resume (ClearResponse true) st
     = set_chat_messages
         [ {| item_role := system;
              item_content := "Chat history cleared successfully!";
              item_sources := [] |} ] st
  /\ clearChatHistory_resume (ClearResponse true)
       (clearChatHistory_resume (ClearResponse true) st)
     = clearChatHistory_resume (ClearResponse true) st.
Proof. repeat split. Qed.

(** X25: a history answer that arrives while a question is in flight takes
    the question off the list: the list is rebuilt from a history that is
    not empty, and the response to the question, when it settles, is
    appended behind the rebuilt history with no user message before it. *)
Theorem history_overtakes_question
    (st : page) (item : history_item) (items : list history_item)
    (r : ask_outcome) :
  trim (chat_input st) <> EmptyString ->
  let rebuilt_page :=
    loadChatHistory_resume (HistoryResult (Some (item :: items)))
      (sendMessage st) in
  chat_messages rebuilt_page = rebuilt (item :: items)
  /\ send_disabled rebuilt_page = true
  /\ exists m,
       chat_messages (sendMessage_resume r rebuilt_page)
       = rebuilt (item :: items) ++ [m]
       /\ item_role m = assistant.
Proof.
  intros H rebuilt_page. subst rebuilt_page.
  rewrite loadChatHistory_resume_rebuilds, (sendMessage_issued st H).
  split; [reflexivity|]. split; [reflexivity|].
  destruct r; eexists; split; reflexivity.
Qed.

Lemma history_overtakes_question_witness :
  let rebuilt_page :=
    loadChatHistory_resume (HistoryResult (Some two_exchanges))
      asking_page in
  chat_messages rebuilt_page = rebuilt two_exchanges
  /\ send_disabled rebuilt_page = true
  /\ exists m,
       chat_messages (sendMessage_resume (AskAnswer "A" None) rebuilt_page)
       = rebuilt two_exchanges ++ [m]
       /\ item_role m = assistant.
Proof.
  apply (history_overtakes_question (set_chat_input "hi" signed_in_page)
           {| message := "Q1"; response := "A1"; sources := Some [] |}
           [ {| message := "Q2"; response := "A2"; sources := Some [s1] |} ]
           (AskAnswer "A" None)).
  discriminate.
Defined.

End Exchanges.

(** ** What every event keeps *)

Section Events.

Lemma handleLogin_cases (st : page) :
  handleLogin st
  = showMessage "Please enter both username and password" "error" st
  \/ handleLogin st
     = fetch (PostLogin (login_username (login_form st))
                (login_password (login_form st))) (showLoading true st).
Proof. unfold handleLogin. case_if; [now left|now right]. Qed.

Lemma handleRegister_cases (st : page) :
  (exists text, handleRegister st = showMessage text "error" st)
  \/ handleRegister st
     = fetch (PostRegister (register_username (register_form st))
                (register_email (register_form st))
                (register_fullname (register_form st))
                (register_password (register_form st)))
         (showLoading true st).
Proof.
  unfold handleRegister. repeat case_if; [left|left|right]; eauto.
Qed.

Lemma handleFileUpload_shapes (st : page) :
  handleFileUpload st = st
  \/ handleFileUpload st
     = showMessage "Please select PDF files only" "error" st
  \/ exists pdfs,
       handleFileUpload st
       = fetch (PostUpload (bearer st) pdfs) (showLoading true st).
Proof.
  rewrite handleFileUpload_cases.
  destruct (file_input st); [now left|].
  destruct (List.filter is_pdf _); [right; now left|right; right; eauto].
Qed.

Lemma sendMessage_shapes (st : page) :
  sendMessage st = st
  \/ sendMessage st
     = fetch (PostAsk (bearer st) (trim (chat_input st)) 5)
         (addMessage user (trim (chat_input st)) None
            (set_send_disabled true (set_chat_input EmptyString st))).
Proof. unfold sendMessage. case_if; [now left|now right]. Qed.

Lemma loadChatHistory_resume_shapes (r : history_outcome) (st : page) :
  loadChatHistory_resume r st = st
  \/ exists items, loadChatHistory_resume r st = set_chat_messages items st.
Proof.
  destruct r as [[[|item items]|]|]; try now left.
  right. rewrite loadChatHistory_resume_rebuilds. eauto.
Qed.

(** An event other than a granted login and a logout leaves the globals and
    storage alone. *)
Lemma handle_same_session (e : event) (st : page) :
  changes_session e = false -> same_session st (handle e st).
Proof.
  intros He. destruct e; cbn [handle]; try (repeat split; fail).
  - destruct (handleFileUpload_shapes (set_file_input fs st))
      as [->|[->|(pdfs & ->)]]; repeat split.
  - destruct (handleLogin_cases st) as [->| ->]; repeat split.
  - destruct r as [token identity|[d|]|]; [discriminate| | |]; repeat split.
  - destruct (handleRegister_cases st) as [(text & ->)| ->]; repeat split.
  - destruct r as [|[d|]|]; repeat split.
  - discriminate.
  - destruct r; repeat split.
  - destruct r as [[[|d ds]|]|]; repeat split.
  - destruct (loadChatHistory_resume_shapes r st) as [->|(items & ->)];
      repeat split.
  - destruct confirmed; repeat split.
  - destruct r as [[]|]; repeat split.
  - destruct (sendMessage_shapes st) as [->| ->]; repeat split.
  - unfold enter_key. case_if; [|repeat split].
    destruct (sendMessage_shapes st) as [->| ->]; repeat split.
  - destruct r; repeat split.
Qed.

Lemma same_session_trans (st1 st2 st3 : page) :
  same_session st1 st2 -> same_session st2 st3 -> same_session st1 st3.
Proof.
  intros (Ha & Hc & Hs) (Ha' & Hc' & Hs'). repeat split; congruence.
Qed.

(** X20: the two globals and storage change at a granted login and at a
    logout and at no other event: a run without those two leaves the token,
    the identity and every storage entry as they were. *)
Theorem session_changes_at_login_and_logout (events : list event) (st : page) :
  forallb (fun e => negb (changes_session e)) events = true ->
  same_session st (run events st).
Proof.
  revert st. induction events as [|e events IH]; intros st H.
  - repeat split.
  - cbn [forallb] in H. apply andb_prop in H as [He H].
    apply negb_true_iff in He.
    apply (same_session_trans st (handle e st)).
    + now apply handle_same_session.
    + apply (IH (handle e st) H).
Qed.

Lemma session_changes_at_login_and_logout_witness :
  same_session signed_in_page
    (run [ChatTyped "hi"; SendClicked; AskSettled (AskAnswer "A" None);
          FilesChosen [a_pdf; b_txt]; UploadSettled UploadError;
          LoginSettled LoginError; ClearClicked true;
          ClearSettled (ClearResponse true)]
       signed_in_page).
Proof.
  apply (session_changes_at_login_and_logout
           [ChatTyped "hi"; SendClicked; AskSettled (AskAnswer "A" None);
            FilesChosen [a_pdf; b_txt]; UploadSettled UploadError;
            LoginSettled LoginError; ClearClicked true;
            ClearSettled (ClearResponse true)] signed_in_page).
  reflexivity.
Defined.

Lemma login_storage (st : page) (token : string) (identity : json) (k : string) :
  getItem k (handleLogin_resume (LoginGranted token identity) st)
  = if decide (k = "currentUser") then Some (stringify identity)
    else if decide (k = "authToken") then Some token
    else getItem k st.
Proof.
  rewrite login_granted_page. cbv zeta.
  set (st1 := save (set_currentUser identity
                      (set_authToken (Some token) st))).
  destruct (showMainApp_globals st1) as (_ & _ & Hs).
  unfold getItem, showLoading, loadDocuments, loadChatHistory, fetch. cbn.
  rewrite Hs. subst st1. unfold save, setItem. cbn.
  destruct (decide (k = "currentUser")) as [->|Hc].
  - apply lookup_insert_eq.
  - rewrite lookup_insert_ne by congruence.
    destruct (decide (k = "authToken")) as [->|Ha].
    + apply lookup_insert_eq.
    + now rewrite lookup_insert_ne by congruence.
Qed.

Lemma handle_other_entries (e : event) (st : page) (k : string) :
  k <> "authToken" -> k <> "currentUser" ->
  getItem k (handle e st) = getItem k st.
Proof.
  intros Ha Hc. destruct (changes_session e) eqn:He.
  - destruct e; try discriminate.
    + destruct r; try discriminate. cbn [handle]. rewrite login_storage.
      now rewrite !decide_False by assumption.
    + cbn [handle]. rewrite logout_storage.
      now rewrite !decide_False by assumption.
  - destruct (handle_same_session e st He) as (_ & _ & Hs).
    unfold getItem. now rewrite Hs.
Qed.

(** X21: the script owns two entries of storage and no other: whatever
    happens on the page, an entry under any key but [authToken] and
    [currentUser] is never written and never removed. *)
Theorem other_entries_are_untouched
    (events : list event) (st : page) (k : string) :
  k <> "authToken" -> k <> "currentUser" ->
  getItem k (run events st) = getItem k st.
Proof.
  intros Ha Hc. revert st. induction events as [|e events IH]; intros st.
  - reflexivity.
  - cbn [run fold_left]. fold (run events (handle e st)).
    rewrite IH. now apply handle_other_entries.
Qed.

Lemma other_entries_are_untouched_witness :
  let st := setItem "theme" "dark" blank_page in
  getItem "theme"
    (run [LoginSettled (LoginGranted "tok1" ada); LogoutClicked] st)
  = getItem "theme" st.
Proof.
  apply (other_entries_are_untouched
           [LoginSettled (LoginGranted "tok1" ada); LogoutClicked]
           (setItem "theme" "dark" blank_page) "theme"); discriminate.
Defined.

Lemma same_session_mirrored (st st' : page) :
  same_session st st' -> mirrored st -> mirrored st'.
Proof.
  intros (Ha & Hc & Hs). unfold mirrored, getItem. now rewrite Ha, Hc, Hs.
Qed.

Lemma login_mirrored (st : page) (token : string) (identity : json) :
  mirrored (handleLogin_resume (LoginGranted token identity) st).
Proof.
  unfold mirrored. rewrite !login_storage.
  set (st1 := save (set_currentUser identity
                      (set_authToken (Some token) st))).
  destruct (showMainApp_globals st1) as (Ha & Hc & _).
  assert (authToken (handleLogin_resume (LoginGranted token identity) st)
          = Some token) as ->.
  { rewrite login_granted_page. cbv zeta. fold st1.
    unfold showLoading, loadDocuments, loadChatHistory, fetch. cbn.
    now rewrite Ha. }
  assert (currentUser (handleLogin_resume (LoginGranted token identity) st)
          = identity) as ->.
  { rewrite login_granted_page. cbv zeta. fold st1.
    unfold showLoading, loadDocuments, loadChatHistory, fetch. cbn.
    now rewrite Hc. }
  now split.
Qed.

Lemma logout_mirrored (st : page) : mirrored (logout st).
Proof.
  unfold mirrored. rewrite !logout_storage.
  change (authToken (logout st)) with (@None string). now split.
Qed.

Lemma handle_mirrored (e : event) (st : page) :
  mirrored st -> mirrored (handle e st).
Proof.
  intros H. destruct (changes_session e) eqn:He.
  - destruct e; try discriminate.
    + destruct r; try discriminate. apply login_mirrored.
    + apply logout_mirrored.
  - exact (same_session_mirrored _ _ (handle_same_session e st He) H).
Qed.

Lemma run_mirrored (events : list event) (st : page) :
  mirrored st -> mirrored (run events st).
Proof.
  revert st. induction events as [|e events IH]; intros st H; [exact H|].
  apply (IH (handle e st)). now apply handle_mirrored.
Qed.

(** X22: storage mirrors memory.  From a granted login or from a logout
    on, whatever happens on the page, storage holds the credential and the
    text of the identity that memory holds, or neither entry when memory
    holds no credential. *)
Theorem storage_mirrors_session
    (events : list event) (st : page) (token : string) (identity : json) :
  mirrored (run events (logout st))
  /\ mirrored (run events (handleLogin_resume (LoginGranted token identity) st)).
Proof.
  split; apply run_mirrored; [apply logout_mirrored|apply login_mirrored].
Qed.

(** X23: reloading gives back the session the page holds.  After a granted
    login and any events, a page loaded over the storage that is left
    returns with the session of the page it replaces, when that session has
    a non-empty credential and an identity whose objects have each property
    once; and it restores nothing when that page holds no session. *)
Theorem reload_after_any_run
    (events : list event) (st fresh : page)
    (token0 : string) (identity0 : json) :
  let old := run events (handleLogin_resume (LoginGranted token0 identity0) st) in
  localStorage fresh = localStorage old ->
  (session old = None ->
     fst (load fresh) = Normal /\ session (snd (load fresh)) = None)
  /\ (forall token identity,
        session old = Some (token, identity) ->
        token <> EmptyString -> wf_json identity = true ->
        fst (load fresh) = Normal
        /\ session (snd (load fresh)) = Some (token, identity)).
Proof.
  intros old Hs.
  assert (mirrored old) as Hm by (apply run_mirrored, login_mirrored).
  unfold mirrored, session in *.
  assert (forall k, getItem k (script_start fresh) = getItem k old) as Hget.
  { intros k. unfold getItem. cbn. now rewrite Hs. }
  destruct (authToken old) as [t|]; destruct Hm as [Ha Hc].
  - split; [discriminate|].
    intros token identity [= -> <-] Hne Hwf.
    assert (truthy_item (getItem "authToken" (script_start fresh))
            = Some token) as Ht.
    { rewrite Hget, Ha. now apply truthy_item_Some. }
    assert (truthy_item (getItem "currentUser" (script_start fresh))
            = Some (stringify (currentUser old))) as Hu.
    { rewrite Hget, Hc. apply truthy_item_Some.
      split; [reflexivity|apply stringify_nonempty]. }
    unfold load, DOMContentLoaded.
    destruct (restore_session _ _ _ _ Ht Hu (parse_stringify _ Hwf))
      as (st1 & -> & Hst1a & Hst1c & _).
    cbn. now rewrite Hst1a, Hst1c.
  - split; [|discriminate]. intros _.
    assert (truthy_item (getItem "authToken" (script_start fresh)) = None)
      as Ht by (now rewrite Hget, Ha).
    unfold load, DOMContentLoaded.
    rewrite (restore_absent (script_start fresh)) by (now left).
    now split.
Qed.

Lemma reload_after_any_run_witness :
  let old :=
    run [ChatTyped "hi"; SendClicked; AskSettled (AskAnswer "A" None)]
      (handleLogin_resume (LoginGranted "tok1" ada) blank_page) in
  (session old = None ->
     fst (load old) = Normal /\ session (snd (load old)) = None)
  /\ (forall token identity,
        session old = Some (token, identity) ->
        token <> EmptyString -> wf_json identity = true ->
        fst (load old) = Normal
        /\ session (snd (load old)) = Some (token, identity)).
Proof.
  apply (reload_after_any_run
           [ChatTyped "hi"; SendClicked; AskSettled (AskAnswer "A" None)]
           blank_page
           (run [ChatTyped "hi"; SendClicked; AskSettled (AskAnswer "A" None)]
              (handleLogin_resume (LoginGranted "tok1" ada) blank_page))
           "tok1" ada).
  reflexivity.
Defined.

Lemma same_session_bearer (st st' : page) :
  same_session st st' -> bearer st' = bearer st.
Proof. intros (Ha & _ & _). unfold bearer. now rewrite Ha. Qed.

Ltac no_request :=
  exists []; rewrite app_nil_r;
  split; [reflexivity|split; [cbn; lia|constructor]].

Ltac one_request :=
  eexists [_];
  split; [reflexivity
         |split; [cbn; lia
                 |repeat constructor; intros h Hh; cbn in Hh;
                  first [discriminate|injection Hh as <-; reflexivity]]].

Lemma handle_issues (e : event) (st : page) :
  changes_session e = false ->
  exists issued,
    network (handle e st) = network st ++ issued
    /\ (length issued <= 1)%nat
    /\ Forall (fun r => forall h, authorization_header r = Some h ->
                         h = bearer st) issued.
Proof.
  intros He. destruct e; cbn [handle]; try no_request.
  - destruct (handleFileUpload_shapes (set_file_input fs st))
      as [->|[->|(pdfs & ->)]]; [no_request|no_request|one_request].
  - destruct (handleLogin_cases st) as [->| ->]; [no_request|one_request].
  - destruct r as [token identity|[d|]|]; [discriminate| | |]; no_request.
  - destruct (handleRegister_cases st) as [(text & ->)| ->];
      [no_request|one_request].
  - destruct r as [|[d|]|]; no_request.
  - destruct r; [one_request|no_request|no_request].
  - destruct r as [[[|d ds]|]|]; no_request.
  - destruct (loadChatHistory_resume_shapes r st) as [->|(items & ->)];
      no_request.
  - destruct confirmed; [one_request|no_request].
  - destruct r as [[]|]; no_request.
  - destruct (sendMessage_shapes st) as [->| ->]; [no_request|one_request].
  - unfold enter_key. case_if; [|no_request].
    destruct (sendMessage_shapes st) as [->| ->]; [no_request|one_request].
  - destruct r; no_request.
Qed.

Lemma login_granted_requests (st : page) (token : string) (identity : json) :
  let st' := handleLogin_resume (LoginGranted token identity) st in
  bearer st' = ("Bearer " ++ token)%string
  /\ network st'
     = network st
       ++ [GetHistory ("Bearer " ++ token) 20;
           GetDocuments ("Bearer " ++ token)].
Proof.
  intros st'. subst st'. rewrite login_granted_page. cbv zeta.
  set (st1 := save (set_currentUser identity
                      (set_authToken (Some token) st))).
  destruct (showMainApp_globals st1) as (Ha & _ & _).
  destruct (showMainApp_frame st1) as (Hn & _).
  unfold showLoading, loadDocuments, loadChatHistory, fetch, bearer. cbn.
  rewrite Ha, Hn. subst st1. cbn. now rewrite <- app_assoc.
Qed.

(** X26: the network log only grows, by two requests at most per event, and
    every request that carries an [Authorization] header carries the
    credential the page holds when the handler is done: [Bearer] and the
    token, or [Bearer null] when there is none.  So the requests that follow
    a granted login already carry the new token. *)
Theorem requests_carry_the_credential (e : event) (st : page) :
  exists issued,
    network (handle e st) = network st ++ issued
    /\ (length issued <= 2)%nat
    /\ Forall (fun r => forall h, authorization_header r = Some h ->
                         h = bearer (handle e st)) issued.
Proof.
  destruct (changes_session e) eqn:He.
  - destruct e; try discriminate.
    + destruct r as [token identity| |]; try discriminate. cbn [handle].
      destruct (login_granted_requests st token identity) as [Hb Hn].
      cbv zeta in Hb, Hn. rewrite Hb, Hn.
      eexists. split; [reflexivity|]. split; [cbn; lia|].
      repeat constructor; intros h [= <-]; reflexivity.
    + exists []. cbn [handle]. rewrite app_nil_r.
      split; [reflexivity|]. split; [cbn; lia|constructor].
  - destruct (handle_issues e st He) as (issued & Hn & Hl & Hall).
    exists issued. split; [exact Hn|]. split; [lia|].
    now rewrite (same_session_bearer _ _ (handle_same_session e st He)).
Qed.

End Events.
